(** * AI & DS department website backend ([app.py])

    A shallow embedding of the Flask application: the JSON values the
    handlers receive and return, the four SQLite tables behind them, the
    schema initialiser [init_db] and one function per route, followed by
    the properties of the routes.

    Conventions of the embedding.
    - A Python value obtained from [request.get_json()] is a [json]; JSON
      numbers are the integers ([int]), fractional numbers are not modelled.
    - A Python [str] is a [string] holding its UTF-8 bytes.
    - An exception is a value of [exn]; code that can raise returns a
      [result]; each handler's [try ... except Exception] turns [Raise e]
      into the 500 response built from [str(e)].
    - The database file is a [Db]: per table, whether it exists, its rows in
      rowid order and its AUTOINCREMENT counter.  A statement is a function
      on the table it names, with the column types and the [NOT NULL] and
      [DEFAULT] clauses of the schema in [init_db].  [CURRENT_TIMESTAMP] is
      the argument [now] of the functions that insert.
    - Integers are unbounded, as Python's are.  An integer bound to a [?]
      must fit the 64 bits of an SQLite INTEGER, otherwise [sqlite3] raises
      [OverflowError]; this holds for the id of a URL as for a number in a
      body.  The failures of the storage engine itself (a full file, the
      lock a connection that was never closed may still hold) are outside
      the model. *)

Set Warnings "-register-all".
From Stdlib Require Import ZArith NArith Ascii String.
From stdpp Require Import base decidable option list strings pretty gmap sorting.

Local Open Scope string_scope.
Local Open Scope list_scope.
Local Open Scope Z_scope.

(* ================================================================== *)
(** * Python values *)

Inductive json : Type :=
| JNull
| JBool (b : bool)
| JInt (n : Z)
| JStr (s : string)
| JArr (items : list json)
| JObj (members : list (string * json)).

(** [bool(v)], the test behind [if v] and [if not v]. *)
Definition truthy (v : json) : bool :=
  match v with
  | JNull => false
  | JBool b => b
  | JInt n => negb (n =? 0)
  | JStr s => negb (String.eqb s "")
  | JArr items => match items with [] => false | _ => true end
  | JObj members => match members with [] => false | _ => true end
  end.

(** [type(v).__name__], as it appears in an [AttributeError]. *)
Definition type_name (v : json) : string :=
  match v with
  | JNull => "NoneType"
  | JBool _ => "bool"
  | JInt _ => "int"
  | JStr _ => "str"
  | JArr _ => "list"
  | JObj _ => "dict"
  end.

(** The exceptions the handlers can meet: Python's own, the one
    [request.get_json()] raises for a body it cannot read, and those of
    [sqlite3]. *)
Inductive exn : Type :=
| AttributeError (ty attr : string)
| KeyError (key : string)
| TypeError (msg : string)
| HTTPException (msg : string)
| OperationalError (msg : string)
| IntegrityError (msg : string)
| ProgrammingError (msg : string)
| OverflowError (msg : string).

(** [str(e)]. *)
Definition str_exn (e : exn) : string :=
  match e with
  | AttributeError ty attr =>
      "'" +:+ ty +:+ "' object has no attribute '" +:+ attr +:+ "'"
  | KeyError key => "'" +:+ key +:+ "'"
  | TypeError msg => msg
  | HTTPException msg => msg
  | OperationalError msg => msg
  | IntegrityError msg => msg
  | ProgrammingError msg => msg
  | OverflowError msg => msg
  end.

(** The outcome of code that can raise.  The [body] argument of a handler
    is the outcome of its [request.get_json()]. *)
Inductive result (A : Type) : Type :=
| Ok (a : A)
| Raise (e : exn).
Arguments Ok {A} a.
Arguments Raise {A} e.

#[global] Instance result_ret : MRet result := fun A a => Ok a.
#[global] Instance result_bind : MBind result := fun A B f m =>
  match m with
  | Ok a => f a
  | Raise e => Raise e
  end.

(** The value of [key] in a [dict] given by its members in the order of
    the JSON text: a key that comes twice keeps its last value, as
    [json.loads] has it. *)
Fixpoint dict_lookup (key : string) (members : list (string * json)) : option json :=
  match members with
  | [] => None
  | (k, v) :: rest =>
      match dict_lookup key rest with
      | Some later => Some later
      | None => if String.eqb k key then Some v else None
      end
  end.

(** [data.get(key, dflt)]; [data.get(key)] is [py_get data key JNull].
    Only a [dict] has the method. *)
Definition py_get (data : json) (key : string) (dflt : json) : result json :=
  match data with
  | JObj members => Ok (default dflt (dict_lookup key members))
  | other => Raise (AttributeError (type_name other) "get")
  end.

(** [data[key]] for a [str] key. *)
Definition py_item (data : json) (key : string) : result json :=
  match data with
  | JObj members =>
      match dict_lookup key members with
      | Some v => Ok v
      | None => Raise (KeyError key)
      end
  | JStr _ => Raise (TypeError "string indices must be integers, not 'str'")
  | JArr _ => Raise (TypeError "list indices must be integers or slices, not str")
  | other => Raise (TypeError ("'" +:+ type_name other +:+ "' object is not subscriptable"))
  end.

(** ** [str.strip] and [str.lower] *)

Definition byte_is (c : ascii) (n : N) : bool := (N_of_ascii c =? n)%N.

(** One-byte white space: U+0009..U+000D, U+001C..U+001F and the space. *)
Definition ws1 (c : ascii) : bool :=
  let n := N_of_ascii c in
  ((9 <=? n) && (n <=? 13) || (28 <=? n) && (n <=? 32))%N.

(** Two-byte white space: U+0085 and U+00A0. *)
Definition ws2 (c1 c2 : ascii) : bool :=
  byte_is c1 194 && (byte_is c2 133 || byte_is c2 160).

(** Three-byte white space: U+1680, U+2000..U+200A, U+2028, U+2029,
    U+202F, U+205F and U+3000. *)
Definition ws3 (c1 c2 c3 : ascii) : bool :=
  let n3 := N_of_ascii c3 in
  byte_is c1 225 && byte_is c2 154 && byte_is c3 128
  || byte_is c1 226 && byte_is c2 128
     && ((128 <=? n3) && (n3 <=? 138) || byte_is c3 168 || byte_is c3 169
         || byte_is c3 175)%N
  || byte_is c1 226 && byte_is c2 129 && byte_is c3 159
  || byte_is c1 227 && byte_is c2 128 && byte_is c3 128.

(** [s.lstrip()]. *)
Fixpoint py_lstrip (s : string) : string :=
  match s with
  | String c1 s1 =>
      if ws1 c1 then py_lstrip s1 else
      match s1 with
      | String c2 s2 =>
          if ws2 c1 c2 then py_lstrip s2 else
          match s2 with
          | String c3 s3 => if ws3 c1 c2 c3 then py_lstrip s3 else s
          | EmptyString => s
          end
      | EmptyString => s
      end
  | EmptyString => s
  end.

(** [s.rstrip()], on the bytes taken from the end: a white-space character
    read backwards is its last byte first. *)
Fixpoint rstrip_rev (s : string) : string :=
  match s with
  | String c1 s1 =>
      if ws1 c1 then rstrip_rev s1 else
      match s1 with
      | String c2 s2 =>
          if ws2 c2 c1 then rstrip_rev s2 else
          match s2 with
          | String c3 s3 => if ws3 c3 c2 c1 then rstrip_rev s3 else s
          | EmptyString => s
          end
      | EmptyString => s
      end
  | EmptyString => s
  end.

Definition py_rstrip (s : string) : string :=
  String.rev (rstrip_rev (String.rev s)).

Definition py_strip (s : string) : string := py_rstrip (py_lstrip s).

(** [s.lower()] on the ASCII letters.  Python also lowers letters outside
    ASCII; none of them becomes a letter of ["admin"], ["staff"] or ["true"],
    the only strings a lowered value is compared with here. *)
Definition lower_ascii (c : ascii) : ascii :=
  let n := N_of_ascii c in
  if ((65 <=? n) && (n <=? 90))%N then ascii_of_N (n + 32) else c.

Fixpoint py_lower (s : string) : string :=
  match s with
  | EmptyString => EmptyString
  | String c rest => String (lower_ascii c) (py_lower rest)
  end.

(* ================================================================== *)
(** * Responses *)

(** [jsonify({...}), status], or a file handed out by
    [send_from_directory]. *)
Inductive response : Type :=
| Resp (body : json) (status : Z)
| SendFile (directory filename : string).

Definition jsonify (members : list (string * json)) : json := JObj members.

(** The [except Exception as e] clause shared by all the API handlers. *)
Definition server_error (e : exn) : response :=
  Resp (jsonify [("success", JBool false); ("error", JStr (str_exn e))]) 500.

(* ================================================================== *)
(** * The SQLite store *)

(** A value bound to a [?] of a statement. *)
Inductive sqlval : Type :=
| SqlNull
| SqlInt (n : Z)
| SqlText (s : string).

(** The integers an SQLite INTEGER holds: the signed 64-bit ones. *)
Definition int64 (n : Z) : Prop :=
  -9223372036854775808 <= n <= 9223372036854775807.

#[global] Instance int64_dec n : Decision (int64 n).
Proof. unfold int64. apply _. Defined.

(** A Python [int] bound to a [?]. *)
Definition bind_int (n : Z) : result Z :=
  if decide (int64 n) then Ok n
  else Raise (OverflowError "Python int too large to convert to SQLite INTEGER").

(** How [sqlite3] adapts the Python value given for parameter [i]: [None],
    [int] (and [bool], a subclass of it) and [str] are supported, a [list]
    or a [dict] is not. *)
Definition bind_param (i : nat) (v : json) : result sqlval :=
  match v with
  | JNull => Ok SqlNull
  | JBool b => Ok (SqlInt (if b then 1 else 0))
  | JInt n => n ← bind_int n; Ok (SqlInt n)
  | JStr s => Ok (SqlText s)
  | other =>
      Raise (ProgrammingError
               ("Error binding parameter " +:+ pretty i +:+ ": type '"
                +:+ type_name other +:+ "' is not supported"))
  end.

(** A column declared [TEXT]: an integer is stored as its decimal text. *)
Definition text_affinity (v : sqlval) : option string :=
  match v with
  | SqlNull => None
  | SqlInt n => Some (pretty n)
  | SqlText s => Some s
  end.

(** A column declared [NOT NULL]. *)
Definition not_null (column : string) (v : option string) : result string :=
  match v with
  | Some s => Ok s
  | None => Raise (IntegrityError ("NOT NULL constraint failed: " +:+ column))
  end.

(** A table: its rows in rowid order and the largest rowid it ever held
    (its line of [sqlite_sequence]). *)
Record table (R : Type) : Type := Table { rows : list R; seq : Z }.
Arguments Table {R} rows seq.
Arguments rows {R} t.
Arguments seq {R} t.

Definition empty_table {R : Type} : table R := Table [] 0.

(** [INTEGER PRIMARY KEY AUTOINCREMENT]: one more than the largest rowid
    the table holds or ever held. *)
Definition next_rowid {R : Type} (rowid : R -> Z) (t : table R) : Z :=
  Z.max (seq t) (foldr Z.max 0 (map rowid (rows t))) + 1.

(** The id of a URL bound to the [?] of [WHERE id = ?].  The rowids a table
    holds are SQLite integers; the model leaves them unbounded and takes the
    id of a row of the table as one that fits, so that only an id no row
    has can be too large.  On the stores the server reaches the rowids do
    fit and this is [bind_int] (last section). *)
Definition bind_rowid {R : Type} (rowid : R -> Z) (t : table R) (id : Z) : result Z :=
  if decide (id ∈ map rowid (rows t)) then Ok id else bind_int id.

(** [DELETE FROM t WHERE id = ?]. *)
Definition delete_where_id {R : Type} (rowid : R -> Z) (id : Z) (t : table R) : table R :=
  Table (filter (fun r => rowid r <> id) (rows t)) (seq t).

(** [SELECT * FROM t WHERE id = ?] followed by [fetchone()]. *)
Definition select_by_id {R : Type} (rowid : R -> Z) (id : Z) (t : table R) : option R :=
  List.find (fun r => rowid r =? id) (rows t).

(** [SELECT COUNT( * ) FROM t]. *)
Definition select_count {R : Type} (t : table R) : Z := Z.of_nat (length (rows t)).

(** [cursor.executemany(statement, parameters)]. *)
Fixpoint executemany {T P : Type} (statement : T -> P -> result T) (t : T)
    (parameters : list P) : result T :=
  match parameters with
  | [] => Ok t
  | p :: rest => t' ← statement t p; executemany statement t' rest
  end.

(** ** The four tables *)

Record contact_row : Type := ContactRow {
  cm_id : Z;
  cm_first_name : string;
  cm_last_name : string;
  cm_email : string;
  cm_phone : option string;
  cm_subject : string;
  cm_message : string;
  cm_newsletter : Z;
  cm_created_at : string }.

Record faculty_row : Type := FacultyRow {
  fac_id : Z;
  fac_name : string;
  fac_designation : string;
  fac_subject : string;
  fac_bio : option string;
  fac_email : option string;
  fac_is_hod : Z }.

Record achievement_row : Type := AchievementRow {
  ach_id : Z;
  ach_icon : option string;
  ach_title : string;
  ach_description : string;
  ach_category : option string;
  ach_is_active : Z;
  ach_created_at : string }.

Record gallery_row : Type := GalleryRow {
  gal_id : Z;
  gal_image_url : string;
  gal_caption : string;
  gal_event_date : option string;
  gal_is_active : Z;
  gal_created_at : string }.

Record Db : Type := MkDb {
  contact_messages : option (table contact_row);
  faculty : option (table faculty_row);
  achievements : option (table achievement_row);
  gallery : option (table gallery_row) }.

(** A database file without any table. *)
Definition empty_store : Db := MkDb None None None None.

(** A statement that names a table the file does not have. *)
Definition open_table {R : Type} (name : string) (t : option (table R)) : result (table R) :=
  match t with
  | Some t => Ok t
  | None => Raise (OperationalError ("no such table: " +:+ name))
  end.

(** [CREATE TABLE IF NOT EXISTS]. *)
Definition create_table_if_not_exists {R : Type} (t : option (table R)) : table R :=
  default empty_table t.

Definition set_contact_messages (db : Db) (t : table contact_row) : Db :=
  MkDb (Some t) (faculty db) (achievements db) (gallery db).
Definition set_faculty (db : Db) (t : table faculty_row) : Db :=
  MkDb (contact_messages db) (Some t) (achievements db) (gallery db).
Definition set_achievements (db : Db) (t : table achievement_row) : Db :=
  MkDb (contact_messages db) (faculty db) (Some t) (gallery db).
Definition set_gallery (db : Db) (t : table gallery_row) : Db :=
  MkDb (contact_messages db) (faculty db) (achievements db) (Some t).

(** ** Statements *)

(** [INSERT INTO contact_messages (first_name, last_name, email, phone,
    subject, message, newsletter) VALUES (?, ?, ?, ?, ?, ?, ?)]; the result
    carries [cursor.lastrowid]. *)
Definition insert_contact (now : string) (t : table contact_row)
    (first_name last_name email phone subject message : sqlval) (newsletter : Z)
    : result (table contact_row * Z) :=
  first_name ← not_null "contact_messages.first_name" (text_affinity first_name);
  last_name ← not_null "contact_messages.last_name" (text_affinity last_name);
  email ← not_null "contact_messages.email" (text_affinity email);
  subject ← not_null "contact_messages.subject" (text_affinity subject);
  message ← not_null "contact_messages.message" (text_affinity message);
  let id := next_rowid cm_id t in
  Ok (Table (rows t ++ [ContactRow id first_name last_name email (text_affinity phone)
                          subject message newsletter now]) id, id).

(** [INSERT INTO faculty (name, designation, subject, bio, email, is_hod)
    VALUES (?, ?, ?, ?, ?, ?)]. *)
Definition insert_faculty (t : table faculty_row)
    (name designation subject bio email : sqlval) (is_hod : Z)
    : result (table faculty_row * Z) :=
  name ← not_null "faculty.name" (text_affinity name);
  designation ← not_null "faculty.designation" (text_affinity designation);
  subject ← not_null "faculty.subject" (text_affinity subject);
  let id := next_rowid fac_id t in
  Ok (Table (rows t ++ [FacultyRow id name designation subject (text_affinity bio)
                          (text_affinity email) is_hod]) id, id).

(** [INSERT INTO achievements (icon, title, description, category,
    is_active) VALUES (?, ?, ?, ?, ?)]. *)
Definition insert_achievement (now : string) (t : table achievement_row)
    (icon title description category : sqlval) (is_active : Z)
    : result (table achievement_row * Z) :=
  title ← not_null "achievements.title" (text_affinity title);
  description ← not_null "achievements.description" (text_affinity description);
  let id := next_rowid ach_id t in
  Ok (Table (rows t ++ [AchievementRow id (text_affinity icon) title description
                          (text_affinity category) is_active now]) id, id).

(** [INSERT INTO gallery (image_url, caption, event_date, is_active)
    VALUES (?, ?, ?, ?)]; the three-column form of [init_db] leaves
    [is_active] to its [DEFAULT 1]. *)
Definition insert_gallery (now : string) (t : table gallery_row)
    (image_url caption event_date : sqlval) (is_active : Z)
    : result (table gallery_row * Z) :=
  image_url ← not_null "gallery.image_url" (text_affinity image_url);
  caption ← not_null "gallery.caption" (text_affinity caption);
  let id := next_rowid gal_id t in
  Ok (Table (rows t ++ [GalleryRow id image_url caption (text_affinity event_date)
                          is_active now]) id, id).

(** [UPDATE t SET ... WHERE id = ?]: every row with that id is replaced by
    [new_row] of it, which raises when a constraint fails. *)
Fixpoint update_rows {R : Type} (rowid : R -> Z) (id : Z) (new_row : R -> result R)
    (l : list R) : result (list R) :=
  match l with
  | [] => Ok []
  | r :: rest =>
      r' ← (if rowid r =? id then new_row r else Ok r);
      rest' ← update_rows rowid id new_row rest;
      Ok (r' :: rest')
  end.

Definition update_where_id {R : Type} (rowid : R -> Z) (id : Z)
    (new_row : R -> result R) (t : table R) : result (table R) :=
  l ← update_rows rowid id new_row (rows t); Ok (Table l (seq t)).

(** [UPDATE faculty SET name = ?, designation = ?, subject = ?, bio = ?,
    email = ?, is_hod = ? WHERE id = ?]. *)
Definition set_faculty_row (name designation subject bio email : sqlval) (is_hod : Z)
    (r : faculty_row) : result faculty_row :=
  name ← not_null "faculty.name" (text_affinity name);
  designation ← not_null "faculty.designation" (text_affinity designation);
  subject ← not_null "faculty.subject" (text_affinity subject);
  Ok (FacultyRow (fac_id r) name designation subject (text_affinity bio)
        (text_affinity email) is_hod).

(** [UPDATE achievements SET icon = ?, title = ?, description = ?,
    category = ?, is_active = ? WHERE id = ?]. *)
Definition set_achievement_row (icon title description category : sqlval) (is_active : Z)
    (r : achievement_row) : result achievement_row :=
  title ← not_null "achievements.title" (text_affinity title);
  description ← not_null "achievements.description" (text_affinity description);
  Ok (AchievementRow (ach_id r) (text_affinity icon) title description
        (text_affinity category) is_active (ach_created_at r)).

(** [UPDATE gallery SET image_url = ?, caption = ?, event_date = ?,
    is_active = ? WHERE id = ?]. *)
Definition set_gallery_row (image_url caption event_date : sqlval) (is_active : Z)
    (r : gallery_row) : result gallery_row :=
  image_url ← not_null "gallery.image_url" (text_affinity image_url);
  caption ← not_null "gallery.caption" (text_affinity caption);
  Ok (GalleryRow (gal_id r) image_url caption (text_affinity event_date)
        is_active (gal_created_at r)).

(** ** [ORDER BY] *)

(** Text compares byte by byte (the [BINARY] collation). *)
Definition text_le (a b : string) : Prop := String.leb a b = true.

(** [ORDER BY created_at DESC], for a table whose rows have the column. *)
Definition created_desc {R : Type} (created_at : R -> string) (a b : R) : Prop :=
  text_le (created_at b) (created_at a).

(** [ORDER BY is_hod DESC, name ASC]. *)
Definition hod_desc_name_asc (a b : faculty_row) : Prop :=
  fac_is_hod b < fac_is_hod a
  \/ (fac_is_hod a = fac_is_hod b /\ text_le (fac_name a) (fac_name b)).

#[global] Instance text_le_dec a b : Decision (text_le a b).
Proof. unfold text_le. apply _. Defined.
#[global] Instance created_desc_dec {R : Type} (created_at : R -> string) a b :
  Decision (created_desc created_at a b).
Proof. unfold created_desc. apply _. Defined.
#[global] Instance hod_desc_name_asc_dec a b : Decision (hod_desc_name_asc a b).
Proof. unfold hod_desc_name_asc. apply _. Defined.

(** The rows a [SELECT ... ORDER BY] returns.  SQL leaves the order of rows
    of equal keys open; SQLite's sorter keeps them in the order of the scan,
    the rowid order, as this stable insertion sort does. *)
Fixpoint sorter_insert {R : Type} (le : R -> R -> Prop) `{!forall a b, Decision (le a b)}
    (r : R) (sorted : list R) : list R :=
  match sorted with
  | [] => [r]
  | r' :: rest =>
      if decide (le r r') then r :: sorted else r' :: sorter_insert le r rest
  end.

Definition order_by {R : Type} (le : R -> R -> Prop) `{!forall a b, Decision (le a b)}
    (l : list R) : list R :=
  foldr (sorter_insert le) [] l.

(* ================================================================== *)
(** * Schema initialiser *)

#[global] Instance result_fmap : FMap result := fun A B f m =>
  match m with
  | Ok a => Ok (f a)
  | Raise e => Raise e
  end.

Definition sample_gallery : list (string * string * string) :=
  [ ("https://images.unsplash.com/photo-1540575467063-178a50c2df87?w=600",
     "Annual Tech Fest 2024 - Students showcasing AI projects", "2024-03-15");
    ("https://images.unsplash.com/photo-1523580494863-6f3031224c94?w=600",
     "Industry Expert Guest Lecture on Machine Learning", "2024-02-20");
    ("https://images.unsplash.com/photo-1559223607-a43c990c692c?w=600",
     "Hackathon Winners - Smart India Hackathon 2024", "2024-01-10");
    ("https://images.unsplash.com/photo-1517245386807-bb43f82c33c4?w=600",
     "Workshop on Deep Learning and Neural Networks", "2024-02-05");
    ("https://images.unsplash.com/photo-1531482615713-2afd69097998?w=600",
     "Placement Drive - Campus Recruitment 2024", "2024-01-25");
    ("https://images.unsplash.com/photo-1552664730-d307ca884978?w=600",
     "Faculty Development Program on AI Ethics", "2024-02-28") ].

Definition sample_achievements : list (string * string * string * string * Z) :=
  [ ("🎯", "100% Placement",
     "All eligible students placed in top MNCs for 2024 batch", "placement", 1);
    ("💼", "Top Recruiters",
     "Google, Microsoft, Amazon, TCS, Infosys & more visiting campus", "placement", 1);
    ("🏆", "Hackathon Champions", "Students won Smart India Hackathon 2024",
     "competition", 1);
    ("📚", "Research Excellence", "50+ papers published in international journals",
     "research", 1);
    ("🌟", "Industry Projects", "Live projects with IBM, Intel & Nvidia partnerships",
     "project", 1);
    ("🎓", "Highest Package", "45 LPA offered by leading tech company", "placement", 1) ].

Definition sample_faculty : list (string * string * string * string * string * Z) :=
  [ ("Dr. Rajesh Kumar", "Head of Department & Professor",
     "Deep Learning & Neural Networks",
     "Dr. Rajesh Kumar has over 20 years of experience in AI research and education.",
     "rajesh.kumar@college.edu", 1);
    ("Dr. Priya Sharma", "Associate Professor",
     "Machine Learning & Pattern Recognition",
     "Ph.D. from IISc Bangalore with expertise in ML algorithms.",
     "priya.sharma@college.edu", 0);
    ("Dr. Amit Patel", "Associate Professor",
     "Natural Language Processing",
     "Expert in NLP with focus on sentiment analysis and language models.",
     "amit.patel@college.edu", 0);
    ("Dr. Sneha Reddy", "Assistant Professor",
     "Computer Vision & Image Processing",
     "Specializes in image recognition and object detection algorithms.",
     "sneha.reddy@college.edu", 0);
    ("Dr. Vikram Singh", "Assistant Professor",
     "Big Data Analytics",
     "Expert in distributed computing and large-scale data processing.",
     "vikram.singh@college.edu", 0);
    ("Dr. Anita Verma", "Assistant Professor",
     "Data Mining & Warehousing",
     "Focuses on knowledge discovery from large datasets.",
     "anita.verma@college.edu", 0);
    ("Prof. Dhanapathy", "Professor",
     "Artificial Neural Networks",
     "30+ years of teaching experience with expertise in neural networks.",
     "dhanapathy@college.edu", 0);
    ("Dr. Kavita Nair", "Associate Professor",
     "Reinforcement Learning",
     "Research focuses on RL applications in robotics.",
     "kavita.nair@college.edu", 0);
    ("Dr. Rahul Joshi", "Assistant Professor",
     "Statistical Learning & Probability",
     "Expert in probabilistic models and statistical inference.",
     "rahul.joshi@college.edu", 0) ].

Definition init_db (db : Db) (now : string) : result Db :=
  let contact_messages := create_table_if_not_exists (contact_messages db) in
  let faculty := create_table_if_not_exists (faculty db) in
  let achievements := create_table_if_not_exists (achievements db) in
  let gallery := create_table_if_not_exists (gallery db) in
  let gallery_count := select_count gallery in
  gallery ←
    (if gallery_count =? 0 then
       executemany
         (fun t '(image_url, caption, event_date) =>
            fst <$> insert_gallery now t (SqlText image_url) (SqlText caption)
                      (SqlText event_date) 1)
         gallery sample_gallery
     else Ok gallery);
  let ach_count := select_count achievements in
  achievements ←
    (if ach_count =? 0 then
       executemany
         (fun t '(icon, title, description, category, is_active) =>
            fst <$> insert_achievement now t (SqlText icon) (SqlText title)
                      (SqlText description) (SqlText category) is_active)
         achievements sample_achievements
     else Ok achievements);
  let count := select_count faculty in
  faculty ←
    (if count =? 0 then
       executemany
         (fun t '(name, designation, subject, bio, email, is_hod) =>
            fst <$> insert_faculty t (SqlText name) (SqlText designation)
                      (SqlText subject) (SqlText bio) (SqlText email) is_hod)
         faculty sample_faculty
     else Ok faculty);
  Ok (MkDb (Some contact_messages) (Some faculty) (Some achievements) (Some gallery)).

(* ================================================================== *)
(** * Routes *)

(** [try: ... except Exception as e: return jsonify(...), 500], for a
    handler that only reads and for one that writes: a statement that raised
    has changed nothing. *)
Definition try_except (body : result response) : response :=
  match body with
  | Ok r => r
  | Raise e => server_error e
  end.

Definition try_except_db (db : Db) (body : result (Db * response)) : Db * response :=
  match body with
  | Ok r => r
  | Raise e => (db, server_error e)
  end.

(** [len(result)]. *)
Definition len {A : Type} (l : list A) : json := JInt (Z.of_nat (length l)).

(** A nullable text column read into the response. *)
Definition json_text (v : option string) : json := from_option JStr JNull v.

(** [bool(row['flag'])]. *)
Definition py_bool (n : Z) : bool := negb (n =? 0).

(** [1 if v else 0]. *)
Definition flag (v : json) : Z := if truthy v then 1 else 0.

(** [for field in required_fields: if not data.get(field): return ...]:
    the field the loop stops at, if any. *)
Fixpoint missing_field (data : json) (required_fields : list string) : result (option string) :=
  match required_fields with
  | [] => Ok None
  | field :: rest =>
      v ← py_get data field JNull;
      if negb (truthy v) then Ok (Some field) else missing_field data rest
  end.

(** [not data.get(key)]. *)
Definition not_get (data : json) (key : string) : result bool :=
  v ← py_get data key JNull; Ok (negb (truthy v)).

(** The receiver of a [str] method. *)
Definition as_str (attr : string) (v : json) : result string :=
  match v with
  | JStr s => Ok s
  | other => Raise (AttributeError (type_name other) attr)
  end.

(** [GET /] and [GET /<path:filename>]. *)
Definition serve_index : response := SendFile "." "index.html".
Definition serve_static (filename : string) : response := SendFile "." filename.

(** ** [POST /api/login] *)

Definition ADMIN_CREDENTIALS : gmap string string :=
  {[ "admin" := "smvec2024"; "staff" := "aidsstaff123" ]}.

(** [expected == password] for a [str] on the left. *)
Definition str_eq (expected : string) (password : json) : bool :=
  match password with
  | JStr p => String.eqb expected p
  | _ => false
  end.

Definition admin_login (body : result json) : response :=
  try_except (
    data ← body;
    raw ← py_get data "username" (JStr "");
    stripped ← py_strip <$> as_str "strip" raw;
    let username := py_lower stripped in
    password ← py_get data "password" (JStr "");
    if match ADMIN_CREDENTIALS !! username with
       | Some expected => str_eq expected password
       | None => false
       end
    then Ok (Resp (jsonify [("success", JBool true);
                            ("message", JStr "Login successful");
                            ("user", JStr username)]) 200)
    else Ok (Resp (jsonify [("success", JBool false);
                            ("error", JStr "Invalid username or password")]) 401)).

(** The 400 response of a failed validation. *)
Definition bad_request (error : string) : response :=
  Resp (jsonify [("success", JBool false); ("error", JStr error)]) 400.

(** The 201 response of a create. *)
Definition created (message : string) (id : Z) : response :=
  Resp (jsonify [("success", JBool true); ("message", JStr message); ("id", JInt id)]) 201.

(** The 200 response of an update or a delete. *)
Definition done_message (message : string) : response :=
  Resp (jsonify [("success", JBool true); ("message", JStr message)]) 200.

(** The 200 response of a listing. *)
Definition listing (result : list json) : response :=
  Resp (jsonify [("success", JBool true); ("data", JArr result); ("count", len result)]) 200.

(** ** [/api/contact] *)

Definition submit_contact (db : Db) (now : string) (body : result json) : Db * response :=
  try_except_db db (
    data ← body;
    missing ← missing_field data ["firstName"; "lastName"; "email"; "subject"; "message"];
    match missing with
    | Some field => Ok (db, bad_request (field +:+ " is required"))
    | None =>
        first_name ← py_item data "firstName";
        last_name ← py_item data "lastName";
        email ← py_item data "email";
        phone ← py_get data "phone" (JStr "");
        subject ← py_item data "subject";
        message ← py_item data "message";
        newsletter ← flag <$> py_get data "newsletter" JNull;
        t ← open_table "contact_messages" (contact_messages db);
        first_name ← bind_param 1 first_name;
        last_name ← bind_param 2 last_name;
        email ← bind_param 3 email;
        phone ← bind_param 4 phone;
        subject ← bind_param 5 subject;
        message ← bind_param 6 message;
        '(t, message_id) ← insert_contact now t first_name last_name email phone
                             subject message newsletter;
        Ok (set_contact_messages db t,
            created "Your message has been received! We will get back to you soon."
              message_id)
    end).

Definition contact_json (msg : contact_row) : json :=
  JObj [("id", JInt (cm_id msg));
        ("firstName", JStr (cm_first_name msg));
        ("lastName", JStr (cm_last_name msg));
        ("email", JStr (cm_email msg));
        ("phone", json_text (cm_phone msg));
        ("subject", JStr (cm_subject msg));
        ("message", JStr (cm_message msg));
        ("newsletter", JBool (py_bool (cm_newsletter msg)));
        ("createdAt", JStr (cm_created_at msg))].

Definition get_contacts (db : Db) : response :=
  try_except (
    t ← open_table "contact_messages" (contact_messages db);
    let messages := order_by (created_desc cm_created_at) (rows t) in
    Ok (listing (map contact_json messages))).

(** ** [/api/faculty] *)

Definition faculty_json (member : faculty_row) : json :=
  JObj [("id", JInt (fac_id member));
        ("name", JStr (fac_name member));
        ("designation", JStr (fac_designation member));
        ("subject", JStr (fac_subject member));
        ("bio", json_text (fac_bio member));
        ("email", json_text (fac_email member));
        ("isHod", JBool (py_bool (fac_is_hod member)))].

Definition get_faculty (db : Db) : response :=
  try_except (
    t ← open_table "faculty" (faculty db);
    let faculty := order_by hod_desc_name_asc (rows t) in
    Ok (listing (map faculty_json faculty))).

Definition get_faculty_by_id (db : Db) (faculty_id : Z) : response :=
  try_except (
    t ← open_table "faculty" (faculty db);
    faculty_id ← bind_rowid fac_id t faculty_id;
    match select_by_id fac_id faculty_id t with
    | None =>
        Ok (Resp (jsonify [("success", JBool false);
                           ("error", JStr "Faculty member not found")]) 404)
    | Some member =>
        Ok (Resp (jsonify [("success", JBool true); ("data", faculty_json member)]) 200)
    end).

Definition add_faculty (db : Db) (body : result json) : Db * response :=
  try_except_db db (
    data ← body;
    missing ← missing_field data ["name"; "designation"; "subject"];
    match missing with
    | Some field => Ok (db, bad_request (field +:+ " is required"))
    | None =>
        name ← py_item data "name";
        designation ← py_item data "designation";
        subject ← py_item data "subject";
        bio ← py_get data "bio" (JStr "");
        email ← py_get data "email" (JStr "");
        is_hod ← flag <$> py_get data "isHod" JNull;
        t ← open_table "faculty" (faculty db);
        name ← bind_param 1 name;
        designation ← bind_param 2 designation;
        subject ← bind_param 3 subject;
        bio ← bind_param 4 bio;
        email ← bind_param 5 email;
        '(t, faculty_id) ← insert_faculty t name designation subject bio email is_hod;
        Ok (set_faculty db t, created "Faculty member added successfully!" faculty_id)
    end).

Definition update_faculty (db : Db) (faculty_id : Z) (body : result json) : Db * response :=
  try_except_db db (
    data ← body;
    name ← py_get data "name" JNull;
    designation ← py_get data "designation" JNull;
    subject ← py_get data "subject" JNull;
    bio ← py_get data "bio" (JStr "");
    email ← py_get data "email" (JStr "");
    is_hod ← flag <$> py_get data "isHod" JNull;
    t ← open_table "faculty" (faculty db);
    name ← bind_param 1 name;
    designation ← bind_param 2 designation;
    subject ← bind_param 3 subject;
    bio ← bind_param 4 bio;
    email ← bind_param 5 email;
    faculty_id ← bind_rowid fac_id t faculty_id;
    t ← update_where_id fac_id faculty_id
          (set_faculty_row name designation subject bio email is_hod) t;
    Ok (set_faculty db t, done_message "Faculty member updated successfully!")).

Definition delete_faculty (db : Db) (faculty_id : Z) : Db * response :=
  try_except_db db (
    t ← open_table "faculty" (faculty db);
    faculty_id ← bind_rowid fac_id t faculty_id;
    Ok (set_faculty db (delete_where_id fac_id faculty_id t),
        done_message "Faculty member deleted successfully!")).

(** ** [/api/achievements] *)

(** [request.args.get('all', 'false').lower() == 'true']. *)
Definition show_all (all : option string) : bool :=
  String.eqb (py_lower (default "false" all)) "true".

Definition achievement_json (ach : achievement_row) : json :=
  JObj [("id", JInt (ach_id ach));
        ("icon", json_text (ach_icon ach));
        ("title", JStr (ach_title ach));
        ("description", JStr (ach_description ach));
        ("category", json_text (ach_category ach));
        ("isActive", JBool (py_bool (ach_is_active ach)));
        ("createdAt", JStr (ach_created_at ach))].

Definition get_achievements (db : Db) (all : option string) : response :=
  try_except (
    t ← open_table "achievements" (achievements db);
    let achievements :=
      if show_all all then order_by (created_desc ach_created_at) (rows t)
      else order_by (created_desc ach_created_at)
             (filter (fun r => ach_is_active r = 1) (rows t)) in
    Ok (listing (map achievement_json achievements))).

Definition add_achievement (db : Db) (now : string) (body : result json) : Db * response :=
  try_except_db db (
    data ← body;
    invalid ← (no_title ← not_get data "title";
               if no_title : bool then Ok true else not_get data "description");
    if invalid : bool then Ok (db, bad_request "Title and description are required")
    else
      icon ← py_get data "icon" (JStr "🏆");
      title ← py_item data "title";
      description ← py_item data "description";
      category ← py_get data "category" (JStr "general");
      is_active ← flag <$> py_get data "isActive" (JBool true);
      t ← open_table "achievements" (achievements db);
      icon ← bind_param 1 icon;
      title ← bind_param 2 title;
      description ← bind_param 3 description;
      category ← bind_param 4 category;
      '(t, ach_id) ← insert_achievement now t icon title description category is_active;
      Ok (set_achievements db t, created "Achievement added successfully!" ach_id)).

Definition update_achievement (db : Db) (ach_id' : Z) (body : result json) : Db * response :=
  try_except_db db (
    data ← body;
    icon ← py_get data "icon" (JStr "🏆");
    title ← py_get data "title" JNull;
    description ← py_get data "description" JNull;
    category ← py_get data "category" (JStr "general");
    is_active ← flag <$> py_get data "isActive" (JBool true);
    t ← open_table "achievements" (achievements db);
    icon ← bind_param 1 icon;
    title ← bind_param 2 title;
    description ← bind_param 3 description;
    category ← bind_param 4 category;
    ach_id' ← bind_rowid ach_id t ach_id';
    t ← update_where_id ach_id ach_id'
          (set_achievement_row icon title description category is_active) t;
    Ok (set_achievements db t, done_message "Achievement updated successfully!")).

Definition delete_achievement (db : Db) (ach_id' : Z) : Db * response :=
  try_except_db db (
    t ← open_table "achievements" (achievements db);
    ach_id' ← bind_rowid ach_id t ach_id';
    Ok (set_achievements db (delete_where_id ach_id ach_id' t),
        done_message "Achievement deleted successfully!")).

(** ** [/api/gallery] *)

Definition gallery_json (img : gallery_row) : json :=
  JObj [("id", JInt (gal_id img));
        ("imageUrl", JStr (gal_image_url img));
        ("caption", JStr (gal_caption img));
        ("eventDate", json_text (gal_event_date img));
        ("isActive", JBool (py_bool (gal_is_active img)));
        ("createdAt", JStr (gal_created_at img))].

Definition get_gallery (db : Db) (all : option string) : response :=
  try_except (
    t ← open_table "gallery" (gallery db);
    let images :=
      if show_all all then order_by (created_desc gal_created_at) (rows t)
      else order_by (created_desc gal_created_at)
             (filter (fun r => gal_is_active r = 1) (rows t)) in
    Ok (listing (map gallery_json images))).

Definition add_gallery (db : Db) (now : string) (body : result json) : Db * response :=
  try_except_db db (
    data ← body;
    invalid ← (no_url ← not_get data "imageUrl";
               if no_url : bool then Ok true else not_get data "caption");
    if invalid : bool then Ok (db, bad_request "Image URL and caption are required")
    else
      image_url ← py_item data "imageUrl";
      caption ← py_item data "caption";
      event_date ← py_get data "eventDate" (JStr "");
      is_active ← flag <$> py_get data "isActive" (JBool true);
      t ← open_table "gallery" (gallery db);
      image_url ← bind_param 1 image_url;
      caption ← bind_param 2 caption;
      event_date ← bind_param 3 event_date;
      '(t, img_id) ← insert_gallery now t image_url caption event_date is_active;
      Ok (set_gallery db t, created "Gallery image added successfully!" img_id)).

Definition update_gallery (db : Db) (img_id : Z) (body : result json) : Db * response :=
  try_except_db db (
    data ← body;
    image_url ← py_get data "imageUrl" JNull;
    caption ← py_get data "caption" JNull;
    event_date ← py_get data "eventDate" (JStr "");
    is_active ← flag <$> py_get data "isActive" (JBool true);
    t ← open_table "gallery" (gallery db);
    image_url ← bind_param 1 image_url;
    caption ← bind_param 2 caption;
    event_date ← bind_param 3 event_date;
    img_id ← bind_rowid gal_id t img_id;
    t ← update_where_id gal_id img_id
          (set_gallery_row image_url caption event_date is_active) t;
    Ok (set_gallery db t, done_message "Gallery image updated successfully!")).

Definition delete_gallery (db : Db) (img_id : Z) : Db * response :=
  try_except_db db (
    t ← open_table "gallery" (gallery db);
    img_id ← bind_rowid gal_id t img_id;
    Ok (set_gallery db (delete_where_id gal_id img_id t),
        done_message "Gallery image deleted successfully!")).

(** ** The routing table *)

Inductive request : Type :=
| GET_index
| GET_static (filename : string)
| POST_login (body : result json)
| POST_contact (body : result json)
| GET_contact
| GET_faculty
| GET_faculty_id (faculty_id : Z)
| POST_faculty (body : result json)
| PUT_faculty (faculty_id : Z) (body : result json)
| DELETE_faculty (faculty_id : Z)
| GET_achievements (all : option string)
| POST_achievements (body : result json)
| PUT_achievements (ach_id : Z) (body : result json)
| DELETE_achievements (ach_id : Z)
| GET_gallery (all : option string)
| POST_gallery (body : result json)
| PUT_gallery (img_id : Z) (body : result json)
| DELETE_gallery (img_id : Z).

(** One request served at time [now] on the store [db]. *)
Definition route (db : Db) (now : string) (req : request) : Db * response :=
  match req with
  | GET_index => (db, serve_index)
  | GET_static filename => (db, serve_static filename)
  | POST_login body => (db, admin_login body)
  | POST_contact body => submit_contact db now body
  | GET_contact => (db, get_contacts db)
  | GET_faculty => (db, get_faculty db)
  | GET_faculty_id faculty_id => (db, get_faculty_by_id db faculty_id)
  | POST_faculty body => add_faculty db body
  | PUT_faculty faculty_id body => update_faculty db faculty_id body
  | DELETE_faculty faculty_id => delete_faculty db faculty_id
  | GET_achievements all => (db, get_achievements db all)
  | POST_achievements body => add_achievement db now body
  | PUT_achievements ach_id body => update_achievement db ach_id body
  | DELETE_achievements ach_id => delete_achievement db ach_id
  | GET_gallery all => (db, get_gallery db all)
  | POST_gallery body => add_gallery db now body
  | PUT_gallery img_id body => update_gallery db img_id body
  | DELETE_gallery img_id => delete_gallery db img_id
  end.

(* ================================================================== *)
(** * Vocabulary of the properties *)

(** The rows of a table of the file, none when the table is missing. *)
Definition table_rows {R : Type} (t : option (table R)) : list R :=
  from_option rows [] t.

(** The two values the handlers and [init_db] write into a flag column. *)
Definition is_flag (n : Z) : Prop := n = 0 \/ n = 1.

(** A table as the program leaves it: it exists, its primary key is
    unique and its flag column holds flags. *)
Definition table_ok {R : Type} (rowid flagof : R -> Z) (t : option (table R)) : Prop :=
  is_Some t
  /\ NoDup (map rowid (table_rows t))
  /\ Forall (fun r => is_flag (flagof r)) (table_rows t).

(** The invariant of the store: [init_db] establishes it on any file and
    every route preserves it. *)
Definition db_ok (db : Db) : Prop :=
  table_ok cm_id cm_newsletter (contact_messages db)
  /\ table_ok fac_id fac_is_hod (faculty db)
  /\ table_ok ach_id ach_is_active (achievements db)
  /\ table_ok gal_id gal_is_active (gallery db).

#[global] Instance is_flag_dec n : Decision (is_flag n).
Proof. unfold is_flag. apply _. Defined.
#[global] Instance table_ok_dec {R : Type} (rowid flagof : R -> Z) t :
  Decision (table_ok rowid flagof t).
Proof. unfold table_ok. apply _. Defined.
#[global] Instance db_ok_dec db : Decision (db_ok db).
Proof. unfold db_ok. apply _. Defined.

(** The store right after the first start of the server. *)
Definition seeded : Db :=
  Eval vm_compute in
  match init_db empty_store "2024-01-01 00:00:00" with
  | Ok db => db
  | Raise _ => empty_store
  end.

(** What a payload submits for [key], [dflt] when it leaves the key out. *)
Definition submitted (data : list (string * json)) (key : string) (dflt : json) : json :=
  default dflt (dict_lookup key data).

(** A field is missing from a payload or has an empty value. *)
Definition missing (data : list (string * json)) (field : string) : Prop :=
  truthy (submitted data field JNull) = false.

(** [field] is the first of the [required] fields that is missing. *)
Definition first_missing (required : list string) (data : list (string * json))
    (field : string) : Prop :=
  exists before after,
    required = before ++ field :: after
    /\ Forall (fun f => ~ missing data f) before
    /\ missing data field.



(** Faculty order as the listing shows it: no member after one that is
    not head of department is head of department, and members of equal
    flag are in the order of their names. *)
Definition hod_first (a b : faculty_row) : Prop :=
  (py_bool (fac_is_hod b) = true -> py_bool (fac_is_hod a) = true)
  /\ (py_bool (fac_is_hod a) = py_bool (fac_is_hod b) -> text_le (fac_name a) (fac_name b)).













(** The requests the server answers one after the other, each at its own
    time: every handler runs a single statement, so a history of the store
    is a sequence of requests.  The result is the store left behind and the
    responses in order. *)
Fixpoint serve (db : Db) (history : list (string * request)) : Db * list response :=
  match history with
  | [] => (db, [])
  | (now, req) :: rest =>
      let '(db1, r) := route db now req in
      let '(db2, rs) := serve db1 rest in
      (db2, r :: rs)
  end.


(** A value that is not a [dict]. *)
Definition not_dict (v : json) : Prop :=
  match v with
  | JObj _ => False
  | _ => True
  end.

(** The four tables by name. *)
Inductive kind : Type := Contact | Faculty | Achievements | Gallery.

#[global] Instance kind_eq_dec : EqDecision kind.
Proof. solve_decision. Defined.

(** The AUTOINCREMENT counter of a table of the store, 0 for a table that
    is missing. *)
Definition counter (db : Db) (k : kind) : Z :=
  match k with
  | Contact => from_option seq 0 (contact_messages db)
  | Faculty => from_option seq 0 (faculty db)
  | Achievements => from_option seq 0 (achievements db)
  | Gallery => from_option seq 0 (gallery db)
  end.

(** The table a create request inserts into. *)
Definition post_kind (req : request) : option kind :=
  match req with
  | POST_contact _ => Some Contact
  | POST_faculty _ => Some Faculty
  | POST_achievements _ => Some Achievements
  | POST_gallery _ => Some Gallery
  | _ => None
  end.

(** The id a 201 response announces. *)
Definition created_id (r : response) : option Z :=
  match r with
  | Resp (JObj members) 201 =>
      match dict_lookup "id" members with
      | Some (JInt id) => Some id
      | _ => None
      end
  | _ => None
  end.

(** The table and the id of the row a request created, if it created one. *)
Definition issued (req : request) (r : response) : option (kind * Z) :=
  match post_kind req, created_id r with
  | Some k, Some id => Some (k, id)
  | _, _ => None
  end.

(** The table a request can write, none for a request that only reads. *)
Definition target (req : request) : option kind :=
  match req with
  | POST_contact _ => Some Contact
  | POST_faculty _ | PUT_faculty _ _ | DELETE_faculty _ => Some Faculty
  | POST_achievements _ | PUT_achievements _ _ | DELETE_achievements _ => Some Achievements
  | POST_gallery _ | PUT_gallery _ _ | DELETE_gallery _ => Some Gallery
  | _ => None
  end.

(** From the rows [old] of a table to its rows [new] after a request at
    time [now]: every row there is either a row that was there, with its id
    and its creation time as they were, or a row under an id no row had,
    created at [now]. *)
Definition rows_kept {R : Type} (rowid : R -> Z) (created_at : R -> string)
    (now : string) (old new : list R) : Prop :=
  forall r', r' ∈ new ->
    (exists r, r ∈ old /\ rowid r = rowid r' /\ created_at r = created_at r')
    \/ ((rowid r' ∉ map rowid old) /\ created_at r' = now).



(** The seeded store after two visitors have written, a day apart. *)
Definition with_messages : Db :=
  Eval vm_compute in
  let first :=
    submit_contact seeded "2024-06-01 10:00:00"
      (Ok (JObj [("firstName", JStr "Asha"); ("lastName", JStr "Rao");
                 ("email", JStr "asha@example.org"); ("subject", JStr "Admissions");
                 ("message", JStr "When do admissions open?")])) in
  let second :=
    submit_contact first.1 "2024-06-02 09:30:00"
      (Ok (JObj [("firstName", JStr "Vikram"); ("lastName", JStr "Nair");
                 ("email", JStr "vikram@example.org"); ("phone", JStr "98450");
                 ("subject", JStr "Placements"); ("message", JStr "Which companies visit?");
                 ("newsletter", JBool true)])) in
  second.1.

(** The rowids of a table lie between 1 and its counter, and the counter
    is at most [bound]. *)
Definition table_within {R : Type} (rowid : R -> Z) (bound : Z) (t : option (table R))
    : Prop :=
  0 <= from_option seq 0 t <= bound
  /\ Forall (fun r => 1 <= rowid r <= from_option seq 0 t) (table_rows t).

Definition db_within (bound : Z) (db : Db) : Prop :=
  table_within cm_id bound (contact_messages db)
  /\ table_within fac_id bound (faculty db)
  /\ table_within ach_id bound (achievements db)
  /\ table_within gal_id bound (gallery db).

#[global] Instance table_within_dec {R : Type} (rowid : R -> Z) bound t :
  Decision (table_within rowid bound t).
Proof. unfold table_within. apply _. Defined.
#[global] Instance db_within_dec bound db : Decision (db_within bound db).
Proof. unfold db_within. apply _. Defined.

(* ================================================================== *)
(** * Properties *)

(** ** The error monad *)

Lemma bind_Ok {A B : Type} (a : A) (f : A -> result B) : (Ok a ≫= f) = f a.
Proof. reflexivity. Qed.

Lemma bind_Raise {A B : Type} (e : exn) (f : A -> result B) : (Raise e ≫= f) = Raise e.
Proof. reflexivity. Qed.

Lemma fmap_Ok {A B : Type} (a : A) (f : A -> B) : f <$> Ok a = Ok (f a).
Proof. reflexivity. Qed.

(** ** The order of texts *)

Lemma string_compare_trans (a b c : string) :
  String.compare a b <> Gt -> String.compare b c <> Gt -> String.compare a c <> Gt.
Proof.
  revert b c. induction a as [|x a IH]; intros [|y b] [|z c]; simpl; try congruence.
  unfold Ascii.compare.
  destruct (N.compare_spec (N_of_ascii x) (N_of_ascii y)) as [Hxy|Hxy|Hxy],
           (N.compare_spec (N_of_ascii y) (N_of_ascii z)) as [Hyz|Hyz|Hyz],
           (N.compare_spec (N_of_ascii x) (N_of_ascii z)) as [Hxz|Hxz|Hxz];
    try congruence; try lia; eauto.
Qed.

Lemma leb_compare (a b : string) : String.leb a b = true <-> String.compare a b <> Gt.
Proof. unfold String.leb. destruct (String.compare a b); split; congruence. Qed.

#[global] Instance text_le_trans : Transitive text_le.
Proof.
  intros a b c. unfold text_le. rewrite !leb_compare. apply string_compare_trans.
Qed.

#[global] Instance text_le_total : Total text_le.
Proof. intros a b. apply String.leb_total. Qed.

#[global] Instance text_le_refl : Reflexive text_le.
Proof. intros a. destruct (text_le_total a a); assumption. Qed.

#[global] Instance created_desc_trans {R : Type} (created_at : R -> string) :
  Transitive (created_desc created_at).
Proof. intros a b c Hab Hbc. unfold created_desc in *. by etrans. Qed.

#[global] Instance created_desc_total {R : Type} (created_at : R -> string) :
  Total (created_desc created_at).
Proof. intros a b. unfold created_desc. destruct (text_le_total (created_at a) (created_at b)); auto. Qed.

#[global] Instance hod_desc_name_asc_trans : Transitive hod_desc_name_asc.
Proof.
  intros a b c [Hab|[Hab Nab]] [Hbc|[Hbc Nbc]]; unfold hod_desc_name_asc.
  - left. lia.
  - left. lia.
  - left. lia.
  - right. split; [lia | by etrans].
Qed.

#[global] Instance hod_desc_name_asc_total : Total hod_desc_name_asc.
Proof.
  intros a b. unfold hod_desc_name_asc.
  destruct (Z.lt_trichotomy (fac_is_hod a) (fac_is_hod b)) as [H|[H|H]]; auto.
  destruct (text_le_total (fac_name a) (fac_name b)); auto.
Qed.

(** ** [ORDER BY] *)

Lemma sorter_insert_perm {R : Type} (le : R -> R -> Prop)
    `{!forall a b, Decision (le a b)} (r : R) (l : list R) :
  sorter_insert le r l ≡ₚ r :: l.
Proof.
  induction l as [|r' l IH]; simpl; [reflexivity|].
  destruct (decide (le r r')); [reflexivity|].
  rewrite IH. apply Permutation_swap.
Qed.

Lemma order_by_perm {R : Type} (le : R -> R -> Prop) `{!forall a b, Decision (le a b)}
    (l : list R) : order_by le l ≡ₚ l.
Proof.
  unfold order_by. induction l as [|r l IH]; simpl; [reflexivity|].
  rewrite sorter_insert_perm, IH. reflexivity.
Qed.

Lemma sorter_insert_sorted {R : Type} (le : R -> R -> Prop)
    `{!forall a b, Decision (le a b)} `{!Transitive le, !Total le} (r : R) (l : list R) :
  StronglySorted le l -> StronglySorted le (sorter_insert le r l).
Proof.
  induction 1 as [|r' l Hsorted IH Hall]; simpl.
  - constructor; constructor.
  - destruct (decide (le r r')) as [Hle|Hnle].
    + constructor; [by constructor|].
      constructor; [exact Hle|].
      eapply Forall_impl; [exact Hall|]. intros r'' Hr''. by transitivity r'.
    + assert (le r' r) as Hle by (destruct (total le r r'); [contradiction|assumption]).
      constructor; [exact IH|].
      rewrite sorter_insert_perm. by constructor.
Qed.

Lemma order_by_sorted {R : Type} (le : R -> R -> Prop) `{!forall a b, Decision (le a b)}
    `{!Transitive le, !Total le} (l : list R) : StronglySorted le (order_by le l).
Proof.
  unfold order_by. induction l as [|r l IH]; simpl; [constructor|].
  by apply sorter_insert_sorted.
Qed.

(** A sorted list stays sorted for a coarser order on its members. *)
Lemma StronglySorted_weaken {R : Type} (P : R -> Prop) (le le' : R -> R -> Prop) (l : list R) :
  (forall a b, P a -> P b -> le a b -> le' a b) ->
  Forall P l -> StronglySorted le l -> StronglySorted le' l.
Proof.
  intros Hle HP Hs. induction Hs as [|a l Hs IH Ha]; constructor.
  - apply IH. by inversion HP.
  - inversion HP as [|? ? Pa Pl]; subst. clear IH Hs HP.
    induction Ha as [|b l Hab Ha IH]; constructor.
    + inversion Pl; subst. auto.
    + apply IH. by inversion Pl.
Qed.

(** ** The invariant, table by table *)

Lemma table_ok_inv {R : Type} (rowid flagof : R -> Z) (o : option (table R)) :
  table_ok rowid flagof o ->
  exists t, o = Some t
    /\ NoDup (map rowid (rows t))
    /\ Forall (fun r => is_flag (flagof r)) (rows t).
Proof.
  intros [[t ->] [Hid Hfl]]. exists t. auto.
Qed.

Lemma flag_is_one (n : Z) : is_flag n -> (n = 1 <-> py_bool n = true).
Proof. intros [-> | ->]; unfold py_bool; simpl; split; congruence. Qed.

Lemma filter_flag {R : Type} (flagof : R -> Z) (l : list R) :
  Forall (fun r => is_flag (flagof r)) l ->
  filter (fun r => flagof r = 1) l = filter (fun r => py_bool (flagof r) = true) l.
Proof.
  induction 1 as [|r l Hr Hl IH]; [reflexivity|].
  rewrite !filter_cons, IH. apply flag_is_one in Hr.
  destruct (decide (flagof r = 1)), (decide (py_bool (flagof r) = true)); tauto.
Qed.

(** ** Listings *)

(** C5: on a store the program maintains, GET /api/faculty answers 200
    with every faculty row, heads of department before the others and the
    names ascending among rows of equal flag. *)
Theorem faculty_listing_order (db : Db) :
  db_ok db ->
  exists l,
    get_faculty db
    = Resp (JObj [("success", JBool true);
                  ("data", JArr (map faculty_json l));
                  ("count", JInt (Z.of_nat (length (map faculty_json l))))]) 200
    /\ l ≡ₚ table_rows (faculty db)
    /\ StronglySorted hod_first l.
Proof.
  intros (_ & Hfac & _). apply table_ok_inv in Hfac as (t & Ht & _ & Hflags).
  exists (order_by hod_desc_name_asc (rows t)).
  unfold get_faculty. rewrite Ht. simpl. split; [reflexivity|].
  split; [apply order_by_perm|].
  apply StronglySorted_weaken
    with (P := fun r => is_flag (fac_is_hod r)) (le := hod_desc_name_asc).
  - intros a b Ha Hb Hab. unfold hod_first, py_bool.
    destruct Ha as [Ha|Ha], Hb as [Hb|Hb], Hab as [Hab|[Hab Hn]];
      rewrite ?Ha, ?Hb in *; simpl; split; intros; try done; try lia.
  - rewrite order_by_perm. exact Hflags.
  - apply order_by_sorted; apply _.
Qed.

(** C4: on a store the program maintains, GET /api/achievements and GET
    /api/gallery answer 200 with the rows whose isActive is true, or with
    every row when the query parameter all is true, newest first, and count
    is the length of data; the full listing is the one of a parameter
    that reads "true" once lowered, so without the parameter the listing is
    the filtered one and with all=true the full one. *)
Theorem listing_active_filter (db : Db) (all : option string) :
  db_ok db ->
  (exists l data,
      data = map achievement_json l
      /\ get_achievements db all
         = Resp (JObj [("success", JBool true);
                       ("data", JArr data);
                       ("count", JInt (Z.of_nat (length data)))]) 200
      /\ l ≡ₚ (if show_all all then table_rows (achievements db)
               else filter (fun r => py_bool (ach_is_active r) = true)
                      (table_rows (achievements db)))
      /\ StronglySorted (created_desc ach_created_at) l)
  /\ (exists l data,
      data = map gallery_json l
      /\ get_gallery db all
         = Resp (JObj [("success", JBool true);
                       ("data", JArr data);
                       ("count", JInt (Z.of_nat (length data)))]) 200
      /\ l ≡ₚ (if show_all all then table_rows (gallery db)
               else filter (fun r => py_bool (gal_is_active r) = true)
                      (table_rows (gallery db)))
      /\ StronglySorted (created_desc gal_created_at) l)
  /\ (show_all all = true <-> exists s, all = Some s /\ py_lower s = "true")
  /\ show_all None = false
  /\ show_all (Some "true") = true.
Proof.
  intros (_ & _ & Hach & Hgal).
  apply table_ok_inv in Hach as (ta & Hta & _ & Hfa).
  apply table_ok_inv in Hgal as (tg & Htg & _ & Hfg).
  split; [|split; [|split; [|split; reflexivity]]]; cycle 2.
  { unfold show_all. rewrite String.eqb_eq. destruct all as [s|]; simpl.
    - split; [eauto | by intros (? & [= <-] & ?)].
    - split; [discriminate | by intros (? & ? & _)]. }
  - unfold get_achievements. rewrite Hta. simpl.
    eexists; eexists; split; [reflexivity|]. split; [reflexivity|].
    destruct (show_all all).
    + split; [apply order_by_perm | apply order_by_sorted; apply _].
    + split; [|apply order_by_sorted; apply _].
      rewrite order_by_perm, filter_flag by exact Hfa. reflexivity.
  - unfold get_gallery. rewrite Htg. simpl.
    eexists; eexists; split; [reflexivity|]. split; [reflexivity|].
    destruct (show_all all).
    + split; [apply order_by_perm | apply order_by_sorted; apply _].
    + split; [|apply order_by_sorted; apply _].
      rewrite order_by_perm, filter_flag by exact Hfg. reflexivity.
Qed.

(** ** Rows by id *)

Lemma bind_int_int64 (n : Z) : int64 n -> bind_int n = Ok n.
Proof. intros H. unfold bind_int. by rewrite decide_True. Qed.

Lemma bind_rowid_int64 {R : Type} (rowid : R -> Z) (t : table R) (id : Z) :
  int64 id -> bind_rowid rowid t id = Ok id.
Proof.
  intros H. unfold bind_rowid. destruct (decide _); [reflexivity|].
  by apply bind_int_int64.
Qed.

Lemma bind_rowid_present {R : Type} (rowid : R -> Z) (t : table R) (id : Z) :
  id ∈ map rowid (rows t) -> bind_rowid rowid t id = Ok id.
Proof. intros H. unfold bind_rowid. by rewrite decide_True. Qed.


Lemma bind_rowid_Ok {R : Type} (rowid : R -> Z) (t : table R) (id id' : Z) :
  bind_rowid rowid t id = Ok id' -> id' = id.
Proof.
  unfold bind_rowid, bind_int. destruct (decide _); [congruence|].
  destruct (decide _); congruence.
Qed.

(** On a table whose rowids all fit 64 bits, as those of an SQLite table
    do, binding an id is the range check alone. *)
Lemma bind_rowid_range {R : Type} (rowid : R -> Z) (t : table R) (id : Z) :
  Forall int64 (map rowid (rows t)) -> bind_rowid rowid t id = bind_int id.
Proof.
  intros Hall. unfold bind_rowid. destruct (decide _) as [Hin|]; [|reflexivity].
  symmetry. apply bind_int_int64. by eapply Forall_forall in Hall.
Qed.

Lemma select_by_id_absent {R : Type} (rowid : R -> Z) (id : Z) (t : table R) :
  id ∉ map rowid (rows t) -> select_by_id rowid id t = None.
Proof.
  unfold select_by_id. induction (rows t) as [|r l IH]; simpl; [reflexivity|].
  rewrite not_elem_of_cons. intros [Hne Hl].
  destruct (Z.eqb_spec (rowid r) id); [congruence | auto].
Qed.

Lemma select_by_id_present {R : Type} (rowid : R -> Z) (r : R) (t : table R) :
  NoDup (map rowid (rows t)) -> r ∈ rows t -> select_by_id rowid (rowid r) t = Some r.
Proof.
  unfold select_by_id. induction (rows t) as [|r' l IH]; simpl.
  - intros _ H. by apply elem_of_nil in H.
  - rewrite NoDup_cons, elem_of_cons. intros [Hr' Hl] [-> | Hin].
    + by rewrite Z.eqb_refl.
    + destruct (Z.eqb_spec (rowid r') (rowid r)) as [Heq|_]; [|auto].
      exfalso. apply Hr'. rewrite Heq. apply list_elem_of_fmap_2. exact Hin.
Qed.

Lemma delete_where_id_absent {R : Type} (rowid : R -> Z) (id : Z) (t : table R) :
  id ∉ map rowid (rows t) -> delete_where_id rowid id t = t.
Proof.
  destruct t as [l s]. unfold delete_where_id. simpl. intros H. f_equal.
  induction l as [|r l IH]; [reflexivity|].
  simpl in H. apply not_elem_of_cons in H as [Hne Hl].
  rewrite filter_cons, IH by exact Hl.
  destruct (decide (rowid r <> id)) as [_|Heq]; [reflexivity|].
  exfalso. apply Heq. congruence.
Qed.

(** C7, amended: on a store the program maintains, GET /api/faculty/{id}
    answers 404 with the "Faculty member not found" body for an id within
    the signed 64-bit range that no row has, and 200 with the record of the
    row for the id of any row. *)
Theorem faculty_by_id_found_or_404 (db : Db) :
  db_ok db ->
  (forall id, int64 id -> id ∉ map fac_id (table_rows (faculty db)) ->
     get_faculty_by_id db id
     = Resp (JObj [("success", JBool false);
                   ("error", JStr "Faculty member not found")]) 404)
  /\ (forall r, r ∈ table_rows (faculty db) ->
     get_faculty_by_id db (fac_id r)
     = Resp (JObj [("success", JBool true); ("data", faculty_json r)]) 200).
Proof.
  intros (_ & Hfac & _). apply table_ok_inv in Hfac as (t & Ht & Hids & _).
  unfold get_faculty_by_id. rewrite Ht. simpl. split.
  - intros id Hrange Hid. rewrite bind_rowid_int64 by exact Hrange. simpl.
    by rewrite select_by_id_absent.
  - intros r Hr. rewrite bind_rowid_present by (by apply list_elem_of_fmap_2).
    simpl. by rewrite select_by_id_present.
Qed.

(** ** Deleting *)

Lemma set_faculty_same (db : Db) (t : table faculty_row) :
  faculty db = Some t -> set_faculty db t = db.
Proof. destruct db. unfold set_faculty. simpl. by intros ->. Qed.

Lemma set_achievements_same (db : Db) (t : table achievement_row) :
  achievements db = Some t -> set_achievements db t = db.
Proof. destruct db. unfold set_achievements. simpl. by intros ->. Qed.

Lemma set_gallery_same (db : Db) (t : table gallery_row) :
  gallery db = Some t -> set_gallery db t = db.
Proof. destruct db. unfold set_gallery. simpl. by intros ->. Qed.

(** C2, amended: on a store the program maintains and for an id within the
    signed 64-bit range, DELETE of an id that no row of the table has
    answers 200 with success and the deletion message and leaves the store
    as it was, for faculty, achievements and gallery; and a DELETE and a
    second DELETE of the same id both give that response. *)
Theorem delete_absent_id_succeeds (db : Db) (id : Z) :
  db_ok db ->
  int64 id ->
  (id ∉ map fac_id (table_rows (faculty db)) ->
     delete_faculty db id
     = (db, Resp (JObj [("success", JBool true);
                        ("message", JStr "Faculty member deleted successfully!")]) 200))
  /\ (id ∉ map ach_id (table_rows (achievements db)) ->
     delete_achievement db id
     = (db, Resp (JObj [("success", JBool true);
                        ("message", JStr "Achievement deleted successfully!")]) 200))
  /\ (id ∉ map gal_id (table_rows (gallery db)) ->
     delete_gallery db id
     = (db, Resp (JObj [("success", JBool true);
                        ("message", JStr "Gallery image deleted successfully!")]) 200))
  /\ (let r := Resp (JObj [("success", JBool true);
                           ("message", JStr "Faculty member deleted successfully!")]) 200 in
      (delete_faculty db id).2 = r
      /\ (delete_faculty (delete_faculty db id).1 id).2 = r)
  /\ (let r := Resp (JObj [("success", JBool true);
                           ("message", JStr "Achievement deleted successfully!")]) 200 in
      (delete_achievement db id).2 = r
      /\ (delete_achievement (delete_achievement db id).1 id).2 = r)
  /\ (let r := Resp (JObj [("success", JBool true);
                           ("message", JStr "Gallery image deleted successfully!")]) 200 in
      (delete_gallery db id).2 = r
      /\ (delete_gallery (delete_gallery db id).1 id).2 = r).
Proof.
  intros (_ & Hfac & Hach & Hgal) Hrange.
  apply table_ok_inv in Hfac as (tf & Htf & _).
  apply table_ok_inv in Hach as (ta & Hta & _).
  apply table_ok_inv in Hgal as (tg & Htg & _).
  unfold delete_faculty, delete_achievement, delete_gallery.
  rewrite Htf, Hta, Htg. simpl.
  rewrite !bind_rowid_int64 by exact Hrange. simpl.
  rewrite !bind_rowid_int64 by exact Hrange. simpl. repeat split.
  - intros H. by rewrite delete_where_id_absent, set_faculty_same.
  - intros H. by rewrite delete_where_id_absent, set_achievements_same.
  - intros H. by rewrite delete_where_id_absent, set_gallery_same.
Qed.

(** ** Login *)

Lemma credentials_table (k v : string) :
  ADMIN_CREDENTIALS !! k = Some v
  <-> (k = "admin" /\ v = "smvec2024") \/ (k = "staff" /\ v = "aidsstaff123").
Proof.
  unfold ADMIN_CREDENTIALS.
  rewrite lookup_insert_Some, lookup_singleton_Some. split.
  - intros [[<- <-] | [Hne [<- <-]]]; auto.
  - intros [[-> ->] | [-> ->]]; [left | right]; auto.
Qed.

(** C6: for a body whose username is the string [u] (the empty string when
    left out), POST /api/login answers 200 with success and the matched
    username when the trimmed, lowered [u] is a key of the credential table
    and the submitted password is that entry's password, and 401 with
    "Invalid username or password" otherwise; the table has the two keys
    admin and staff; ADMIN with smvec2024 succeeds, admin with wrong is
    refused. *)
Theorem login_contract (data : list (string * json)) (u : string) :
  submitted data "username" (JStr "") = JStr u ->
  let username := py_lower (py_strip u) in
  let password := submitted data "password" (JStr "") in
  ((exists expected,
       ADMIN_CREDENTIALS !! username = Some expected /\ password = JStr expected) ->
     admin_login (Ok (JObj data))
     = Resp (JObj [("success", JBool true);
                   ("message", JStr "Login successful");
                   ("user", JStr username)]) 200)
  /\ (~ (exists expected,
       ADMIN_CREDENTIALS !! username = Some expected /\ password = JStr expected) ->
     admin_login (Ok (JObj data))
     = Resp (JObj [("success", JBool false);
                   ("error", JStr "Invalid username or password")]) 401)
  /\ (forall k, is_Some (ADMIN_CREDENTIALS !! k) <-> k = "admin" \/ k = "staff")
  /\ admin_login (Ok (JObj [("username", JStr "ADMIN"); ("password", JStr "smvec2024")]))
     = Resp (JObj [("success", JBool true);
                   ("message", JStr "Login successful");
                   ("user", JStr "admin")]) 200
  /\ admin_login (Ok (JObj [("username", JStr "admin"); ("password", JStr "wrong")]))
     = Resp (JObj [("success", JBool false);
                   ("error", JStr "Invalid username or password")]) 401.
Proof.
  intros Hu username password.
  assert (Hrun : admin_login (Ok (JObj data))
    = if match ADMIN_CREDENTIALS !! username with
         | Some expected => str_eq expected password
         | None => false
         end
      then Resp (JObj [("success", JBool true);
                       ("message", JStr "Login successful");
                       ("user", JStr username)]) 200
      else Resp (JObj [("success", JBool false);
                       ("error", JStr "Invalid username or password")]) 401).
  { unfold admin_login, py_get. rewrite bind_Ok, bind_Ok.
    fold (submitted data "username" (JStr "")). rewrite Hu. simpl.
    fold (submitted data "password" (JStr "")). fold username password.
    by destruct (ADMIN_CREDENTIALS !! username) as [expected|];
      [destruct (str_eq expected password)|]. }
  split; [|split; [|split; [|split]]].
  - intros (expected & Hkey & Hpw). rewrite Hrun, Hkey, Hpw. simpl.
    by rewrite String.eqb_refl.
  - intros Hno. rewrite Hrun.
    destruct (ADMIN_CREDENTIALS !! username) as [expected|]; [|reflexivity].
    destruct password as [| | |p| |]; simpl; try reflexivity.
    destruct (String.eqb_spec expected p) as [->|]; [|reflexivity].
    exfalso. apply Hno. by exists p.
  - intros k. unfold is_Some. split.
    + intros [v Hv]. apply credentials_table in Hv. tauto.
    + intros [-> | ->]; eexists; apply credentials_table; eauto.
  - reflexivity.
  - reflexivity.
Qed.

(** ** Validation of create requests *)

Lemma missing_field_stops (required : list string) (data : list (string * json))
    (field : string) :
  first_missing required data field ->
  missing_field (JObj data) required = Ok (Some field).
Proof.
  intros (before & after & -> & Hbefore & Hfield).
  induction Hbefore as [|f before Hf _ IH]; simpl.
  - unfold missing, submitted in Hfield. by rewrite Hfield.
  - unfold missing, submitted in Hf. apply not_false_is_true in Hf. by rewrite Hf.
Qed.

Lemma not_get_missing (data : list (string * json)) (key : string) :
  missing data key -> not_get (JObj data) key = Ok true.
Proof. unfold missing, submitted, not_get. simpl. by intros ->. Qed.

Lemma not_get_dict (data : list (string * json)) (key : string) :
  exists b, not_get (JObj data) key = Ok b.
Proof. unfold not_get. simpl. eauto. Qed.

(** C1 (as the code has it): a create request with a JSON object body in
    which a mandatory field is missing or empty answers 400 and leaves the
    store as it was; for contact and faculty the error is "<field> is
    required" for the first such field, for achievements it is "Title and
    description are required" and for gallery "Image URL and caption are
    required". *)
Theorem create_validation (db : Db) (now : string) (data : list (string * json)) :
  (forall field,
      first_missing ["firstName"; "lastName"; "email"; "subject"; "message"] data field ->
      submit_contact db now (Ok (JObj data))
      = (db, Resp (JObj [("success", JBool false);
                         ("error", JStr (field +:+ " is required"))]) 400))
  /\ (forall field,
      first_missing ["name"; "designation"; "subject"] data field ->
      add_faculty db (Ok (JObj data))
      = (db, Resp (JObj [("success", JBool false);
                         ("error", JStr (field +:+ " is required"))]) 400))
  /\ (missing data "title" \/ missing data "description" ->
      add_achievement db now (Ok (JObj data))
      = (db, Resp (JObj [("success", JBool false);
                         ("error", JStr "Title and description are required")]) 400))
  /\ (missing data "imageUrl" \/ missing data "caption" ->
      add_gallery db now (Ok (JObj data))
      = (db, Resp (JObj [("success", JBool false);
                         ("error", JStr "Image URL and caption are required")]) 400)).
Proof.
  split; [|split; [|split]].
  - intros field H. unfold submit_contact.
    by rewrite bind_Ok, (missing_field_stops _ _ _ H).
  - intros field H. unfold add_faculty.
    by rewrite bind_Ok, (missing_field_stops _ _ _ H).
  - intros H. unfold add_achievement. rewrite bind_Ok.
    destruct (not_get_dict data "title") as [[|] Ht]; rewrite Ht, bind_Ok.
    + reflexivity.
    + destruct H as [H|H]; apply not_get_missing in H; [congruence|].
      by rewrite H.
  - intros H. unfold add_gallery. rewrite bind_Ok.
    destruct (not_get_dict data "imageUrl") as [[|] Ht]; rewrite Ht, bind_Ok.
    + reflexivity.
    + destruct H as [H|H]; apply not_get_missing in H; [congruence|].
      by rewrite H.
Qed.

(** C1 fails as stated: an achievement without a title is refused with the
    fixed message, which does not name the field. *)
Lemma create_validation_fixed_message :
  first_missing ["title"; "description"] [("description", JStr "Won a prize")] "title"
  /\ add_achievement seeded "2024-06-01 10:00:00"
       (Ok (JObj [("description", JStr "Won a prize")]))
     = (seeded, Resp (JObj [("success", JBool false);
                            ("error", JStr "Title and description are required")]) 400)
  /\ (add_achievement seeded "2024-06-01 10:00:00"
       (Ok (JObj [("description", JStr "Won a prize")]))).2
     <> Resp (JObj [("success", JBool false); ("error", JStr "title is required")]) 400.
Proof.
  split; [|split].
  - exists [], ["description"]. split; [reflexivity|]. split; [constructor | reflexivity].
  - reflexivity.
  - discriminate.
Qed.

Lemma create_validation_witness :
  first_missing ["firstName"; "lastName"; "email"; "subject"; "message"]
    [("firstName", JStr "Jane"); ("lastName", JStr ""); ("message", JStr "Hi")] "lastName"
  /\ submit_contact seeded "2024-06-01 10:00:00"
       (Ok (JObj [("firstName", JStr "Jane"); ("lastName", JStr ""); ("message", JStr "Hi")]))
     = (seeded, Resp (JObj [("success", JBool false);
                            ("error", JStr "lastName is required")]) 400).
Proof.
  assert (H : first_missing ["firstName"; "lastName"; "email"; "subject"; "message"]
    [("firstName", JStr "Jane"); ("lastName", JStr ""); ("message", JStr "Hi")] "lastName").
  { exists ["firstName"], ["email"; "subject"; "message"].
    split; [reflexivity|]. split; [|reflexivity].
    constructor; [|constructor]. vm_compute. discriminate. }
  split; [exact H|].
  exact (proj1 (create_validation seeded "2024-06-01 10:00:00"
    [("firstName", JStr "Jane"); ("lastName", JStr ""); ("message", JStr "Hi")]) "lastName" H).
Defined.

(** ** Running a handler *)

(** Runs a handler symbolically: the innermost step that can raise is
    split into its two outcomes, until none is left. *)
Ltac unfold_monad :=
  unfold try_except_db, try_except, mbind, result_bind, fmap, result_fmap in *;
  cbv beta in *.

Ltac is_step m :=
  lazymatch m with
  | context [match _ with Ok _ => _ | Raise _ => _ end] => fail
  | context [match _ with Some _ => _ | None => _ end] => fail
  | context [if _ then _ else _] => fail
  | context [let '(_, _) := _ in _] => fail
  | _ => idtac
  end.

Ltac split_step :=
  match goal with
  | |- context [match ?m with Ok _ => _ | Raise _ => _ end] => is_step m; destruct m eqn:?
  | |- context [match ?m with Some _ => _ | None => _ end] => is_step m; destruct m eqn:?
  | |- context [if ?b then _ else _] => is_step b; destruct b eqn:?
  | |- context [let '(_, _) := ?p in _] => is_step p; destruct p
  end.

Ltac run_handler := unfold_monad; repeat (split_step; cbn [fst snd] in *).










Lemma insert_contact_appends (now : string) (t t' : table contact_row)
    (first_name last_name email phone subject message : sqlval) (newsletter id : Z) :
  insert_contact now t first_name last_name email phone subject message newsletter
  = Ok (t', id) ->
  exists row,
    t' = Table (rows t ++ [row]) id
    /\ cm_id row = id
    /\ id = next_rowid cm_id t
    /\ cm_newsletter row = newsletter
    /\ cm_created_at row = now.
Proof.
  unfold insert_contact. run_handler; intros H; inversion H; subst.
  eexists. split; [reflexivity|]. auto.
Qed.

Lemma open_table_Ok {R : Type} (name : string) (o : option (table R)) (t : table R) :
  open_table name o = Ok t -> o = Some t.
Proof. destruct o; simpl; congruence. Qed.

(** ** The schema initialiser *)

Lemma select_count_nonempty {R : Type} (t : table R) :
  rows t <> [] -> (select_count t =? 0) = false.
Proof.
  unfold select_count. destruct (rows t); [congruence|]. intros _.
  apply Z.eqb_neq. simpl. lia.
Qed.

Lemma init_db_populated (now : string) (cm : table contact_row) (fac : table faculty_row)
    (ach : table achievement_row) (gal : table gallery_row) :
  rows fac <> [] -> rows ach <> [] -> rows gal <> [] ->
  init_db (MkDb (Some cm) (Some fac) (Some ach) (Some gal)) now
  = Ok (MkDb (Some cm) (Some fac) (Some ach) (Some gal)).
Proof.
  intros Hfac Hach Hgal. unfold init_db.
  cbv beta iota zeta delta [create_table_if_not_exists contact_messages faculty
    achievements gallery default from_option id].
  rewrite !select_count_nonempty by assumption. reflexivity.
Qed.

(** C8: [init_db] leaves a store unchanged when its four tables exist and
    the three seeded ones are not empty; on a file without tables it
    creates the four tables, leaves contact_messages empty and inserts six
    gallery rows, six achievement rows and nine faculty rows of which one
    is head of department; run again on the result, at any time, it changes
    nothing. *)
Theorem init_db_idempotent :
  (forall db now,
      is_Some (contact_messages db) ->
      table_rows (faculty db) <> [] ->
      table_rows (achievements db) <> [] ->
      table_rows (gallery db) <> [] ->
      init_db db now = Ok db)
  /\ (forall now,
      exists db1,
        init_db empty_store now = Ok db1
        /\ contact_messages db1 = Some empty_table
        /\ is_Some (faculty db1) /\ is_Some (achievements db1) /\ is_Some (gallery db1)
        /\ length (table_rows (gallery db1)) = 6%nat
        /\ length (table_rows (achievements db1)) = 6%nat
        /\ length (table_rows (faculty db1)) = 9%nat
        /\ length (filter (fun r => py_bool (fac_is_hod r) = true)
                     (table_rows (faculty db1))) = 1%nat
        /\ forall now', init_db db1 now' = Ok db1).
Proof.
  split.
  - intros [cm fac ach gal] now Hcm Hfac Hach Hgal.
    cbn [contact_messages faculty achievements gallery] in *.
    destruct cm as [cm|]; [clear Hcm | by destruct Hcm].
    destruct fac as [fac|]; [|done]. destruct ach as [ach|]; [|done].
    destruct gal as [gal|]; [|done]. by apply init_db_populated.
  - intros now. eexists. split; [vm_compute; reflexivity|].
    split; [reflexivity|]. repeat (split; [by eexists|]).
    repeat (split; [reflexivity|]).
    intros now'. by apply init_db_populated.
Qed.

Lemma init_db_idempotent_witness :
  is_Some (contact_messages seeded)
  /\ table_rows (faculty seeded) <> []
  /\ table_rows (achievements seeded) <> []
  /\ table_rows (gallery seeded) <> []
  /\ init_db seeded "2025-01-01 00:00:00" = Ok seeded.
Proof.
  assert (Hcm : is_Some (contact_messages seeded)) by (by eexists).
  assert (Hfac : table_rows (faculty seeded) <> []) by discriminate.
  assert (Hach : table_rows (achievements seeded) <> []) by discriminate.
  assert (Hgal : table_rows (gallery seeded) <> []) by discriminate.
  repeat (split; [assumption|]).
  exact (proj1 init_db_idempotent seeded "2025-01-01 00:00:00" Hcm Hfac Hach Hgal).
Defined.

(** ** The invariant is established by [init_db] and kept by every route *)

Lemma flag_is_flag (v : json) : is_flag (flag v).
Proof. unfold flag, is_flag. destruct (truthy v); auto. Qed.

Lemma next_rowid_above {R : Type} (rowid : R -> Z) (t : table R) :
  Forall (fun r => rowid r < next_rowid rowid t) (rows t).
Proof.
  unfold next_rowid. generalize (seq t). induction (rows t) as [|r l IH]; intros s.
  - constructor.
  - constructor; simpl; [lia|].
    eapply Forall_impl; [apply (IH s)|]. simpl. intros; lia.
Qed.

Lemma next_rowid_fresh {R : Type} (rowid : R -> Z) (t : table R) :
  next_rowid rowid t ∉ map rowid (rows t).
Proof.
  intros Hin. apply list_elem_of_fmap in Hin as (r & Heq & Hr).
  pose proof (next_rowid_above rowid t) as Habove.
  rewrite Forall_forall in Habove. specialize (Habove r Hr). lia.
Qed.

Lemma table_ok_append {R : Type} (rowid flagof : R -> Z) (t : table R) (r : R) (s : Z) :
  table_ok rowid flagof (Some t) ->
  rowid r = next_rowid rowid t -> is_flag (flagof r) ->
  table_ok rowid flagof (Some (Table (rows t ++ [r]) s)).
Proof.
  intros (_ & Hids & Hflags) Hid Hflag. unfold table_ok, table_rows in *. simpl in *.
  split; [by eexists|]. split.
  - rewrite map_app. simpl. apply NoDup_app. split; [exact Hids|]. split.
    + intros x Hx Hx'. apply list_elem_of_singleton in Hx'. subst x.
      rewrite Hid in Hx. by apply next_rowid_fresh in Hx.
    + apply NoDup_singleton.
  - apply Forall_app. split; [exact Hflags|]. by constructor.
Qed.

Lemma table_ok_delete {R : Type} (rowid flagof : R -> Z) (t : table R) (id : Z) :
  table_ok rowid flagof (Some t) ->
  table_ok rowid flagof (Some (delete_where_id rowid id t)).
Proof.
  intros (_ & Hids & Hflags). unfold table_ok, table_rows in *. simpl in *.
  split; [by eexists|]. split.
  - eapply sublist_NoDup; [exact Hids|].
    apply (fmap_sublist rowid), sublist_filter.
  - rewrite Forall_forall in *. intros r Hr. apply Hflags.
    by apply list_elem_of_filter in Hr as [_ Hr].
Qed.

Lemma update_rows_keeps {R : Type} (rowid flagof : R -> Z) (id : Z)
    (new_row : R -> result R) (l l' : list R) :
  (forall r r', new_row r = Ok r' -> rowid r' = rowid r /\ is_flag (flagof r')) ->
  update_rows rowid id new_row l = Ok l' ->
  map rowid l' = map rowid l
  /\ (Forall (fun r => is_flag (flagof r)) l -> Forall (fun r => is_flag (flagof r)) l').
Proof.
  intros Hnew. revert l'. induction l as [|r l IH]; intros l'; simpl.
  - intros [= <-]. auto.
  - unfold_monad.
    destruct (rowid r =? id) eqn:Hid.
    + destruct (new_row r) as [r'|] eqn:Hr; [|discriminate].
      destruct (update_rows rowid id new_row l) as [rest|]; [|discriminate].
      intros [= <-]. destruct (IH rest eq_refl) as [Hmap Hfl].
      destruct (Hnew _ _ Hr) as [Hsame Hflag]. simpl. split; [congruence|].
      intros Hall. inversion Hall; subst. constructor; auto.
    + destruct (update_rows rowid id new_row l) as [rest|]; [|discriminate].
      intros [= <-]. destruct (IH rest eq_refl) as [Hmap Hfl]. simpl.
      split; [congruence|]. intros Hall. inversion Hall; subst. constructor; auto.
Qed.

Lemma table_ok_update {R : Type} (rowid flagof : R -> Z) (id : Z)
    (new_row : R -> result R) (t t' : table R) :
  (forall r r', new_row r = Ok r' -> rowid r' = rowid r /\ is_flag (flagof r')) ->
  update_where_id rowid id new_row t = Ok t' ->
  table_ok rowid flagof (Some t) -> table_ok rowid flagof (Some t').
Proof.
  intros Hnew Hup (_ & Hids & Hflags). unfold update_where_id in Hup. unfold_monad.
  destruct (update_rows rowid id new_row (rows t)) as [l|] eqn:Hl; [|discriminate].
  injection Hup as <-. destruct (update_rows_keeps rowid flagof _ _ _ _ Hnew Hl) as [Hmap Hfl].
  unfold table_ok, table_rows in *. simpl in *. split; [by eexists|]. rewrite Hmap. auto.
Qed.

Lemma insert_contact_ok (now : string) (t t' : table contact_row)
    (first_name last_name email phone subject message : sqlval) (newsletter id : Z) :
  insert_contact now t first_name last_name email phone subject message newsletter
  = Ok (t', id) ->
  is_flag newsletter ->
  table_ok cm_id cm_newsletter (Some t) -> table_ok cm_id cm_newsletter (Some t').
Proof.
  intros H Hflag Hok. apply insert_contact_appends in H as (row & -> & Hid & -> & Hnl & _).
  apply table_ok_append; congruence.
Qed.

Lemma insert_faculty_ok (t t' : table faculty_row)
    (name designation subject bio email : sqlval) (is_hod id : Z) :
  insert_faculty t name designation subject bio email is_hod = Ok (t', id) ->
  is_flag is_hod ->
  table_ok fac_id fac_is_hod (Some t) -> table_ok fac_id fac_is_hod (Some t').
Proof.
  unfold insert_faculty. run_handler; intros [= <- <-] Hflag Hok.
  by apply table_ok_append.
Qed.

Lemma insert_achievement_ok (now : string) (t t' : table achievement_row)
    (icon title description category : sqlval) (is_active id : Z) :
  insert_achievement now t icon title description category is_active = Ok (t', id) ->
  is_flag is_active ->
  table_ok ach_id ach_is_active (Some t) -> table_ok ach_id ach_is_active (Some t').
Proof.
  unfold insert_achievement. run_handler; intros [= <- <-] Hflag Hok.
  by apply table_ok_append.
Qed.

Lemma insert_gallery_ok (now : string) (t t' : table gallery_row)
    (image_url caption event_date : sqlval) (is_active id : Z) :
  insert_gallery now t image_url caption event_date is_active = Ok (t', id) ->
  is_flag is_active ->
  table_ok gal_id gal_is_active (Some t) -> table_ok gal_id gal_is_active (Some t').
Proof.
  unfold insert_gallery. run_handler; intros [= <- <-] Hflag Hok.
  by apply table_ok_append.
Qed.

Lemma set_faculty_row_keeps (name designation subject bio email : sqlval) (is_hod : Z)
    (r r' : faculty_row) :
  is_flag is_hod ->
  set_faculty_row name designation subject bio email is_hod r = Ok r' ->
  fac_id r' = fac_id r /\ is_flag (fac_is_hod r').
Proof. unfold set_faculty_row. run_handler; intros Hflag [= <-]; auto. Qed.

Lemma set_achievement_row_keeps (icon title description category : sqlval) (is_active : Z)
    (r r' : achievement_row) :
  is_flag is_active ->
  set_achievement_row icon title description category is_active r = Ok r' ->
  ach_id r' = ach_id r /\ is_flag (ach_is_active r').
Proof. unfold set_achievement_row. run_handler; intros Hflag [= <-]; auto. Qed.

Lemma set_gallery_row_keeps (image_url caption event_date : sqlval) (is_active : Z)
    (r r' : gallery_row) :
  is_flag is_active ->
  set_gallery_row image_url caption event_date is_active r = Ok r' ->
  gal_id r' = gal_id r /\ is_flag (gal_is_active r').
Proof. unfold set_gallery_row. run_handler; intros Hflag [= <-]; auto. Qed.

Lemma db_ok_set_contact_messages (db : Db) (t : table contact_row) :
  db_ok db -> table_ok cm_id cm_newsletter (Some t) -> db_ok (set_contact_messages db t).
Proof. intros (? & ? & ? & ?) ?. unfold db_ok. simpl. split_and!; assumption. Qed.

Lemma db_ok_set_faculty (db : Db) (t : table faculty_row) :
  db_ok db -> table_ok fac_id fac_is_hod (Some t) -> db_ok (set_faculty db t).
Proof. intros (? & ? & ? & ?) ?. unfold db_ok. simpl. split_and!; assumption. Qed.

Lemma db_ok_set_achievements (db : Db) (t : table achievement_row) :
  db_ok db -> table_ok ach_id ach_is_active (Some t) -> db_ok (set_achievements db t).
Proof. intros (? & ? & ? & ?) ?. unfold db_ok. simpl. split_and!; assumption. Qed.

Lemma db_ok_set_gallery (db : Db) (t : table gallery_row) :
  db_ok db -> table_ok gal_id gal_is_active (Some t) -> db_ok (set_gallery db t).
Proof. intros (? & ? & ? & ?) ?. unfold db_ok. simpl. split_and!; assumption. Qed.

(** Puts the table a handler opened back into the invariant's words. *)
Ltac opened :=
  repeat match goal with
  | H : open_table _ _ = Ok _ |- _ => apply open_table_Ok in H
  end;
  match goal with
  | Hok : db_ok ?db |- _ =>
      let H := fresh in
      pose proof Hok as H; destruct H as (? & ? & ? & ?)
  end;
  repeat match goal with
  | H : ?o = Some _, H' : table_ok _ _ ?o |- _ => rewrite H in H'
  end.

(** Every route keeps the invariant. *)
Lemma route_ok (db : Db) (now : string) (req : request) :
  db_ok db -> db_ok (route db now req).1.
Proof.
  intros Hok. destruct req; simpl; try assumption.
  - unfold submit_contact. run_handler; try assumption. opened.
    apply db_ok_set_contact_messages; [assumption|].
    eapply insert_contact_ok; eauto using flag_is_flag.
  - unfold add_faculty. run_handler; try assumption. opened.
    apply db_ok_set_faculty; [assumption|].
    eapply insert_faculty_ok; eauto using flag_is_flag.
  - unfold update_faculty. run_handler; try assumption. opened.
    apply db_ok_set_faculty; [assumption|].
    eapply table_ok_update; [|eassumption|assumption].
    intros r r'. apply set_faculty_row_keeps, flag_is_flag.
  - unfold delete_faculty. run_handler; try assumption. opened.
    apply db_ok_set_faculty; [assumption|]. by apply table_ok_delete.
  - unfold add_achievement. run_handler; try assumption. opened.
    apply db_ok_set_achievements; [assumption|].
    eapply insert_achievement_ok; eauto using flag_is_flag.
  - unfold update_achievement. run_handler; try assumption. opened.
    apply db_ok_set_achievements; [assumption|].
    eapply table_ok_update; [|eassumption|assumption].
    intros r r'. apply set_achievement_row_keeps, flag_is_flag.
  - unfold delete_achievement. run_handler; try assumption. opened.
    apply db_ok_set_achievements; [assumption|]. by apply table_ok_delete.
  - unfold add_gallery. run_handler; try assumption. opened.
    apply db_ok_set_gallery; [assumption|].
    eapply insert_gallery_ok; eauto using flag_is_flag.
  - unfold update_gallery. run_handler; try assumption. opened.
    apply db_ok_set_gallery; [assumption|].
    eapply table_ok_update; [|eassumption|assumption].
    intros r r'. apply set_gallery_row_keeps, flag_is_flag.
  - unfold delete_gallery. run_handler; try assumption. opened.
    apply db_ok_set_gallery; [assumption|]. by apply table_ok_delete.
Qed.

Lemma empty_table_ok {R : Type} (rowid flagof : R -> Z) :
  table_ok rowid flagof (Some empty_table).
Proof. split; [by eexists|]. split; simpl; constructor. Qed.

Lemma create_table_ok {R : Type} (rowid flagof : R -> Z) (o : option (table R)) :
  o = None \/ table_ok rowid flagof o ->
  table_ok rowid flagof (Some (create_table_if_not_exists o)).
Proof.
  intros [-> | Hok]; [apply empty_table_ok|].
  by destruct Hok as ([t ->] & ?).
Qed.

(** Seeding a table with statements that keep it well formed. *)
Lemma executemany_ok {R P : Type} (rowid flagof : R -> Z) (Q : P -> Prop)
    (statement : table R -> P -> result (table R)) (parameters : list P) :
  (forall t p, Q p -> table_ok rowid flagof (Some t) ->
     exists t', statement t p = Ok t' /\ table_ok rowid flagof (Some t')) ->
  Forall Q parameters ->
  forall t, table_ok rowid flagof (Some t) ->
  exists t', (if select_count t =? 0 then executemany statement t parameters else Ok t)
             = Ok t'
             /\ table_ok rowid flagof (Some t').
Proof.
  intros Hstmt HQ t Hok. destruct (select_count t =? 0); [|eauto].
  revert t Hok. induction HQ as [|p ps Hp _ IH]; intros t Hok; simpl; [eauto|].
  destruct (Hstmt t p Hp Hok) as (t1 & -> & Hok1). rewrite bind_Ok. by apply IH.
Qed.

(** [init_db] succeeds on a file whose tables, where present, are well
    formed, and leaves a store that satisfies the invariant. *)
Lemma init_db_ok (db : Db) (now : string) :
  (contact_messages db = None \/ table_ok cm_id cm_newsletter (contact_messages db)) ->
  (faculty db = None \/ table_ok fac_id fac_is_hod (faculty db)) ->
  (achievements db = None \/ table_ok ach_id ach_is_active (achievements db)) ->
  (gallery db = None \/ table_ok gal_id gal_is_active (gallery db)) ->
  exists db', init_db db now = Ok db' /\ db_ok db'.
Proof.
  intros Hcm Hfac Hach Hgal.
  apply create_table_ok in Hcm, Hfac, Hach, Hgal.
  unfold init_db. cbv zeta.
  match goal with |- context [executemany ?stmt _ sample_gallery] =>
    edestruct (executemany_ok gal_id gal_is_active (fun _ => True) stmt sample_gallery)
      as (gal & -> & Hgal'); [| |exact Hgal|]
  end.
  { intros t [[image_url caption] event_date] _ Hok.
    simpl. eexists. split; [reflexivity|].
    apply table_ok_append; [exact Hok | reflexivity | by right]. }
  { apply Forall_true. done. }
  rewrite bind_Ok.
  match goal with |- context [executemany ?stmt _ sample_achievements] =>
    edestruct (executemany_ok ach_id ach_is_active (fun p => is_flag p.2) stmt
                 sample_achievements) as (ach & -> & Hach'); [| |exact Hach|]
  end.
  { intros t [[[[icon title] description] category] is_active] Hflag Hok.
    simpl. eexists. split; [reflexivity|].
    apply table_ok_append; [exact Hok | reflexivity | exact Hflag]. }
  { unfold sample_achievements, is_flag. repeat (constructor; [simpl; auto|]).
    constructor. }
  rewrite bind_Ok.
  match goal with |- context [executemany ?stmt _ sample_faculty] =>
    edestruct (executemany_ok fac_id fac_is_hod (fun p => is_flag p.2) stmt
                 sample_faculty) as (fac & -> & Hfac'); [| |exact Hfac|]
  end.
  { intros t [[[[[name designation] subject] bio] email] is_hod] Hflag Hok.
    simpl. eexists. split; [reflexivity|].
    apply table_ok_append; [exact Hok | reflexivity | exact Hflag]. }
  { unfold sample_faculty, is_flag. repeat (constructor; [simpl; auto|]).
    constructor. }
  rewrite bind_Ok. eexists. split; [reflexivity|].
  unfold db_ok. simpl. auto.
Qed.

Lemma seeded_init : init_db empty_store "2024-01-01 00:00:00" = Ok seeded.
Proof. vm_compute. reflexivity. Qed.

Lemma seeded_ok : db_ok seeded.
Proof. apply (bool_decide_unpack _). vm_compute. exact I. Defined.

(** ** The listings and lookups on the seeded store *)

Lemma faculty_listing_order_witness :
  db_ok seeded
  /\ exists l,
       get_faculty seeded
       = Resp (JObj [("success", JBool true);
                     ("data", JArr (map faculty_json l));
                     ("count", JInt (Z.of_nat (length (map faculty_json l))))]) 200
       /\ l ≡ₚ table_rows (faculty seeded)
       /\ StronglySorted hod_first l.
Proof.
  split; [exact seeded_ok | exact (faculty_listing_order seeded seeded_ok)].
Defined.

Lemma listing_active_filter_witness :
  db_ok seeded
  /\ exists l data,
       data = map achievement_json l
       /\ get_achievements seeded (Some "true")
          = Resp (JObj [("success", JBool true);
                        ("data", JArr data);
                        ("count", JInt (Z.of_nat (length data)))]) 200
       /\ l ≡ₚ (if show_all (Some "true") then table_rows (achievements seeded)
                else filter (fun r => py_bool (ach_is_active r) = true)
                       (table_rows (achievements seeded)))
       /\ StronglySorted (created_desc ach_created_at) l.
Proof.
  split; [exact seeded_ok|].
  exact (proj1 (listing_active_filter seeded (Some "true") seeded_ok)).
Defined.

(** C7 fails as stated: the route accepts the id 2^63, which no row has,
    and the lookup answers 500 with the binding error, not 404. *)
Lemma faculty_by_id_beyond_int64 :
  db_ok seeded
  /\ (9223372036854775808 ∉ map fac_id (table_rows (faculty seeded)))
  /\ get_faculty_by_id seeded 9223372036854775808
     = Resp (JObj [("success", JBool false);
                   ("error", JStr "Python int too large to convert to SQLite INTEGER")]) 500
  /\ get_faculty_by_id seeded 9223372036854775808
     <> Resp (JObj [("success", JBool false);
                    ("error", JStr "Faculty member not found")]) 404.
Proof.
  split; [exact seeded_ok|]. split; [|split].
  - apply (bool_decide_unpack _). vm_compute. exact I.
  - vm_compute. reflexivity.
  - vm_compute. discriminate.
Qed.

Lemma faculty_by_id_found_or_404_witness :
  db_ok seeded
  /\ int64 9999
  /\ (9999 ∉ map fac_id (table_rows (faculty seeded)))
  /\ get_faculty_by_id seeded 9999
     = Resp (JObj [("success", JBool false);
                   ("error", JStr "Faculty member not found")]) 404.
Proof.
  assert (Hrange : int64 9999) by (unfold int64; lia).
  assert (H : 9999 ∉ map fac_id (table_rows (faculty seeded))).
  { apply (bool_decide_unpack _). vm_compute. exact I. }
  split; [exact seeded_ok|]. split; [exact Hrange|]. split; [exact H|].
  exact (proj1 (faculty_by_id_found_or_404 seeded seeded_ok) 9999 Hrange H).
Defined.

(** C2 fails as stated: the route accepts the id 2^63, which no row has,
    and the DELETE answers 500 with the binding error, not 200. *)
Lemma delete_beyond_int64 :
  db_ok seeded
  /\ (9223372036854775808 ∉ map fac_id (table_rows (faculty seeded)))
  /\ delete_faculty seeded 9223372036854775808
     = (seeded,
        Resp (JObj [("success", JBool false);
                    ("error", JStr "Python int too large to convert to SQLite INTEGER")]) 500)
  /\ (delete_faculty seeded 9223372036854775808).2
     <> Resp (JObj [("success", JBool true);
                    ("message", JStr "Faculty member deleted successfully!")]) 200.
Proof.
  split; [exact seeded_ok|]. split; [|split].
  - apply (bool_decide_unpack _). vm_compute. exact I.
  - vm_compute. reflexivity.
  - vm_compute. discriminate.
Qed.

Lemma delete_absent_id_succeeds_witness :
  db_ok seeded
  /\ int64 9999
  /\ (9999 ∉ map fac_id (table_rows (faculty seeded)))
  /\ delete_faculty seeded 9999
     = (seeded, Resp (JObj [("success", JBool true);
                            ("message", JStr "Faculty member deleted successfully!")]) 200).
Proof.
  assert (Hrange : int64 9999) by (unfold int64; lia).
  assert (H : 9999 ∉ map fac_id (table_rows (faculty seeded))).
  { apply (bool_decide_unpack _). vm_compute. exact I. }
  split; [exact seeded_ok|]. split; [exact Hrange|]. split; [exact H|].
  exact (proj1 (delete_absent_id_succeeds seeded 9999 seeded_ok Hrange) H).
Defined.

Lemma login_contract_witness :
  submitted [("username", JStr "  Staff "); ("password", JStr "aidsstaff123")]
    "username" (JStr "") = JStr "  Staff "
  /\ admin_login (Ok (JObj [("username", JStr "  Staff ");
                            ("password", JStr "aidsstaff123")]))
     = Resp (JObj [("success", JBool true);
                   ("message", JStr "Login successful");
                   ("user", JStr "staff")]) 200.
Proof.
  split; [reflexivity|].
  apply (proj1 (login_contract
                  [("username", JStr "  Staff "); ("password", JStr "aidsstaff123")]
                  "  Staff " eq_refl)).
  exists "aidsstaff123". split; reflexivity.
Defined.

(** ** Create, then read back *)
















(** ** What a request does to the contact messages *)






Lemma with_messages_ok : db_ok with_messages.
Proof. apply (bool_decide_unpack _). vm_compute. exact I. Defined.




(** ** Updates *)
















(* ================================================================== *)
(** * Further properties of the routes *)

(** ** The invariant along a history *)

Lemma serve_ok (db : Db) (history : list (string * request)) :
  db_ok db -> db_ok (serve db history).1.
Proof.
  revert db. induction history as [|[now req] rest IH]; intros db Hok; simpl.
  - exact Hok.
  - pose proof (route_ok db now req Hok) as Hstep.
    destruct (route db now req) as [db1 r]. specialize (IH db1 Hstep).
    destruct (serve db1 rest) as [db2 rs]. exact IH.
Qed.

(** X1: whatever the time of the first start and whatever requests follow,
    [init_db] succeeds on a file without tables and the store the requests
    leave behind has its four tables, unique ids in each and only 0 or 1 in
    the flag columns. *)
Theorem reachable_store_ok (now : string) (history : list (string * request)) :
  exists db0,
    init_db empty_store now = Ok db0
    /\ db_ok db0
    /\ db_ok (serve db0 history).1.
Proof.
  destruct (init_db_ok empty_store now) as (db0 & Hinit & Hok); try (by left).
  exists db0. split; [exact Hinit|]. split; [exact Hok|]. by apply serve_ok.
Qed.

(** ** A restart of the server *)

Lemma next_rowid_after_seq {R : Type} (rowid : R -> Z) (t : table R) :
  seq t < next_rowid rowid t.
Proof. unfold next_rowid. lia. Qed.

(** A batch of inserts appends one row per parameter, each with an id
    above the counter the batch started from. *)
Lemma executemany_appends {R P : Type} (rowid : R -> Z) (mk : Z -> P -> R)
    (statement : table R -> P -> result (table R)) :
  (forall t p,
      statement t p
      = Ok (Table (rows t ++ [mk (next_rowid rowid t) p]) (next_rowid rowid t))) ->
  forall parameters t,
  exists t' l,
    executemany statement t parameters = Ok t'
    /\ rows t' = rows t ++ l
    /\ seq t <= seq t'
    /\ Forall2 (fun r p => exists id, r = mk id p /\ seq t < id) l parameters.
Proof.
  intros Hstmt parameters. induction parameters as [|p ps IH]; intros t; simpl.
  - exists t, []. rewrite app_nil_r. split_and!; [reflexivity..|lia|constructor].
  - rewrite Hstmt, bind_Ok.
    destruct (IH (Table (rows t ++ [mk (next_rowid rowid t) p]) (next_rowid rowid t)))
      as (t' & l & -> & Hrows & Hseq & Hl).
    simpl in *. pose proof (next_rowid_after_seq rowid t).
    exists t', (mk (next_rowid rowid t) p :: l).
    split; [reflexivity|]. split; [by rewrite Hrows, <- app_assoc|].
    split; [lia|]. constructor; [eauto|].
    eapply Forall2_impl; [exact Hl|]. intros r q (id & -> & Hid). exists id. split; [done|lia].
Qed.

Lemma seed_empty_or_keep {R P : Type} (rowid : R -> Z) (mk : Z -> P -> R)
    (statement : table R -> P -> result (table R)) (parameters : list P) (t : table R) :
  (forall t p,
      statement t p
      = Ok (Table (rows t ++ [mk (next_rowid rowid t) p]) (next_rowid rowid t))) ->
  exists t',
    (if select_count t =? 0 then executemany statement t parameters else Ok t) = Ok t'
    /\ (rows t <> [] -> t' = t)
    /\ (rows t = [] ->
        Forall2 (fun r p => exists id, r = mk id p /\ seq t < id) (rows t') parameters).
Proof.
  intros Hstmt. destruct (rows t) as [|r l] eqn:Hrows.
  - unfold select_count. rewrite Hrows. simpl.
    destruct (executemany_appends rowid mk statement Hstmt parameters t)
      as (t' & new & -> & Hnew & _ & Hall).
    exists t'. split; [reflexivity|]. split; [done|]. intros _.
    by rewrite Hnew, Hrows.
  - rewrite select_count_nonempty by (rewrite Hrows; discriminate).
    exists t. split; [reflexivity|]. split; [done | discriminate].
Qed.

(** X2: [init_db] run again on a store the program maintains succeeds and
    keeps the invariant; it leaves contact_messages alone, leaves each of
    gallery, achievements and faculty alone when it has a row, and refills
    one that has been emptied with its sample rows in order, gallery rows
    active and stamped with the current time, under ids above the table's
    counter. *)
Theorem init_db_restart (db : Db) (now : string) :
  db_ok db ->
  exists db',
    init_db db now = Ok db'
    /\ db_ok db'
    /\ contact_messages db' = contact_messages db
    /\ (table_rows (gallery db) <> [] -> gallery db' = gallery db)
    /\ (table_rows (achievements db) <> [] -> achievements db' = achievements db)
    /\ (table_rows (faculty db) <> [] -> faculty db' = faculty db)
    /\ (table_rows (gallery db) = [] ->
        Forall2 (fun r '(image_url, caption, event_date) =>
                   gal_image_url r = image_url /\ gal_caption r = caption
                   /\ gal_event_date r = Some event_date /\ gal_is_active r = 1
                   /\ gal_created_at r = now /\ counter db Gallery < gal_id r)
          (table_rows (gallery db')) sample_gallery)
    /\ (table_rows (achievements db) = [] ->
        Forall2 (fun r '(icon, title, description, category, is_active) =>
                   ach_icon r = Some icon /\ ach_title r = title
                   /\ ach_description r = description /\ ach_category r = Some category
                   /\ ach_is_active r = is_active /\ ach_created_at r = now
                   /\ counter db Achievements < ach_id r)
          (table_rows (achievements db')) sample_achievements)
    /\ (table_rows (faculty db) = [] ->
        Forall2 (fun r '(name, designation, subject, bio, email, is_hod) =>
                   fac_name r = name /\ fac_designation r = designation
                   /\ fac_subject r = subject /\ fac_bio r = Some bio
                   /\ fac_email r = Some email /\ fac_is_hod r = is_hod
                   /\ counter db Faculty < fac_id r)
          (table_rows (faculty db')) sample_faculty).
Proof.
  intros Hok.
  destruct (init_db_ok db now) as (db' & Hinit & Hok');
    try (right; apply Hok). exists db'. split; [exact Hinit|]. split; [exact Hok'|].
  destruct Hok as (Hcm & Hfac & Hach & Hgal).
  apply table_ok_inv in Hcm as (cm & Hcm & _).
  apply table_ok_inv in Hfac as (fac & Hfac & _).
  apply table_ok_inv in Hach as (ach & Hach & _).
  apply table_ok_inv in Hgal as (gal & Hgal & _).
  destruct db as [ocm ofac oach ogal]. simpl in Hcm, Hfac, Hach, Hgal. subst.
  revert Hinit. unfold init_db.
  cbv beta iota zeta delta [create_table_if_not_exists contact_messages faculty
    achievements gallery default from_option id].
  match goal with |- context [executemany ?stmt gal sample_gallery] =>
    destruct (seed_empty_or_keep gal_id
      (fun id '(image_url, caption, event_date) =>
         GalleryRow id image_url caption (Some event_date) 1 now)
      stmt sample_gallery gal) as (gal' & -> & Hgk & Hge);
      [by intros t [[? ?] ?]|] end.
  rewrite bind_Ok.
  match goal with |- context [executemany ?stmt ach sample_achievements] =>
    destruct (seed_empty_or_keep ach_id
      (fun id '(icon, title, description, category, is_active) =>
         AchievementRow id (Some icon) title description (Some category) is_active now)
      stmt sample_achievements ach) as (ach' & -> & Hak & Hae);
      [by intros t [[[[? ?] ?] ?] ?]|] end.
  rewrite bind_Ok.
  match goal with |- context [executemany ?stmt fac sample_faculty] =>
    destruct (seed_empty_or_keep fac_id
      (fun id '(name, designation, subject, bio, email, is_hod) =>
         FacultyRow id name designation subject (Some bio) (Some email) is_hod)
      stmt sample_faculty fac) as (fac' & -> & Hfk & Hfe);
      [by intros t [[[[[? ?] ?] ?] ?] ?]|] end.
  rewrite bind_Ok. intros [= <-]. simpl.
  split; [reflexivity|].
  split; [intros H; by rewrite (Hgk H)|].
  split; [intros H; by rewrite (Hak H)|].
  split; [intros H; by rewrite (Hfk H)|].
  split; [|split].
  - intros H. eapply Forall2_impl; [exact (Hge H)|].
    intros r [[? ?] ?] (id & -> & Hid). simpl. auto 10.
  - intros H. eapply Forall2_impl; [exact (Hae H)|].
    intros r [[[[? ?] ?] ?] ?] (id & -> & Hid). simpl. auto 10.
  - intros H. eapply Forall2_impl; [exact (Hfe H)|].
    intros r [[[[[? ?] ?] ?] ?] ?] (id & -> & Hid). simpl. auto 10.
Qed.

Lemma init_db_restart_witness :
  db_ok seeded
  /\ exists db',
       init_db seeded "2025-01-01 00:00:00" = Ok db'
       /\ db_ok db'
       /\ contact_messages db' = contact_messages seeded.
Proof.
  split; [exact seeded_ok|].
  destruct (init_db_restart seeded "2025-01-01 00:00:00" seeded_ok)
    as (db' & Hinit & Hok & Hcm & _).
  exists db'. auto.
Defined.

(** ** The contact messages *)

(** X3: on a store the program maintains, GET /api/contact answers 200
    with every contact message, newest first, and count is the length of
    data. *)
Theorem contact_listing_order (db : Db) :
  db_ok db ->
  exists l data,
    data = map contact_json l
    /\ get_contacts db
       = Resp (JObj [("success", JBool true);
                     ("data", JArr data);
                     ("count", JInt (Z.of_nat (length data)))]) 200
    /\ l ≡ₚ table_rows (contact_messages db)
    /\ StronglySorted (created_desc cm_created_at) l.
Proof.
  intros (Hcm & _). apply table_ok_inv in Hcm as (t & Ht & _).
  unfold get_contacts. rewrite Ht. simpl.
  eexists; eexists; split; [reflexivity|]. split; [reflexivity|].
  split; [apply order_by_perm | apply order_by_sorted; apply _].
Qed.

Lemma contact_listing_order_witness :
  db_ok with_messages
  /\ map cm_created_at (table_rows (contact_messages with_messages))
     = ["2024-06-01 10:00:00"; "2024-06-02 09:30:00"]
  /\ (exists l data,
       data = map contact_json l
       /\ get_contacts with_messages
          = Resp (JObj [("success", JBool true);
                        ("data", JArr data);
                        ("count", JInt (Z.of_nat (length data)))]) 200
       /\ l ≡ₚ table_rows (contact_messages with_messages)
       /\ StronglySorted (created_desc cm_created_at) l)
  /\ get_contacts with_messages
     = Resp (JObj [("success", JBool true);
                   ("data",
                    JArr [JObj [("id", JInt 2);
                                ("firstName", JStr "Vikram");
                                ("lastName", JStr "Nair");
                                ("email", JStr "vikram@example.org");
                                ("phone", JStr "98450");
                                ("subject", JStr "Placements");
                                ("message", JStr "Which companies visit?");
                                ("newsletter", JBool true);
                                ("createdAt", JStr "2024-06-02 09:30:00")];
                          JObj [("id", JInt 1);
                                ("firstName", JStr "Asha");
                                ("lastName", JStr "Rao");
                                ("email", JStr "asha@example.org");
                                ("phone", JStr "");
                                ("subject", JStr "Admissions");
                                ("message", JStr "When do admissions open?");
                                ("newsletter", JBool false);
                                ("createdAt", JStr "2024-06-01 10:00:00")]]);
                   ("count", JInt 2)]) 200.
Proof.
  split; [exact with_messages_ok|]. split; [reflexivity|].
  split; [exact (contact_listing_order with_messages with_messages_ok)|].
  vm_compute. reflexivity.
Defined.

(** ** Bodies that are not objects, stores without tables *)

Lemma py_get_not_dict (v : json) (key : string) (dflt : json) :
  not_dict v -> py_get v key dflt = Raise (AttributeError (type_name v) "get").
Proof. by destruct v. Qed.

(** X4: a create, update or login request whose body could not be read,
    or is JSON but not an object, answers 500 and leaves the store as it
    was; for a body that is a list, a string, a number, a boolean or null the
    error is the one of calling get on a value of that type. *)
Theorem body_not_object (db : Db) (now : string) (id : Z) (body : result json) (e : exn) :
  body = Raise e \/ (exists v, body = Ok v /\ not_dict v
                               /\ e = AttributeError (type_name v) "get") ->
  admin_login body = server_error e
  /\ submit_contact db now body = (db, server_error e)
  /\ add_faculty db body = (db, server_error e)
  /\ update_faculty db id body = (db, server_error e)
  /\ add_achievement db now body = (db, server_error e)
  /\ update_achievement db id body = (db, server_error e)
  /\ add_gallery db now body = (db, server_error e)
  /\ update_gallery db id body = (db, server_error e).
Proof.
  intros [-> | (v & -> & Hv & ->)].
  - split_and!; reflexivity.
  - unfold admin_login, submit_contact, add_faculty, update_faculty, add_achievement,
      update_achievement, add_gallery, update_gallery, not_get, missing_field.
    rewrite !bind_Ok, !py_get_not_dict by exact Hv. split_and!; reflexivity.
Qed.

Lemma body_not_object_witness :
  (Ok (JArr [JStr "name"]) = Raise (AttributeError "list" "get")
   \/ exists v, Ok (JArr [JStr "name"]) = Ok v /\ not_dict v
                /\ AttributeError "list" "get" = AttributeError (type_name v) "get")
  /\ add_faculty seeded (Ok (JArr [JStr "name"]))
     = (seeded, Resp (JObj [("success", JBool false);
                            ("error", JStr "'list' object has no attribute 'get'")]) 500).
Proof.
  assert (H : Ok (JArr [JStr "name"]) = Raise (AttributeError "list" "get")
              \/ exists v, Ok (JArr [JStr "name"]) = Ok v /\ not_dict v
                 /\ AttributeError "list" "get" = AttributeError (type_name v) "get").
  { right. exists (JArr [JStr "name"]). split; [reflexivity|]. split; [exact I | reflexivity]. }
  split; [exact H|].
  exact (proj1 (proj2 (proj2 (body_not_object seeded "2024-06-01 10:00:00" 1 _ _ H)))).
Defined.

(** X5: on a file in which [init_db] has not created the table, the
    listings, the lookup by id and the deletes answer 500 with SQLite's "no
    such table" message and leave the file as it was. *)
Theorem missing_table_is_500 (db : Db) (id : Z) (all : option string) :
  (contact_messages db = None ->
     get_contacts db = server_error (OperationalError "no such table: contact_messages"))
  /\ (faculty db = None ->
     get_faculty db = server_error (OperationalError "no such table: faculty")
     /\ get_faculty_by_id db id = server_error (OperationalError "no such table: faculty")
     /\ delete_faculty db id
        = (db, server_error (OperationalError "no such table: faculty")))
  /\ (achievements db = None ->
     get_achievements db all
     = server_error (OperationalError "no such table: achievements")
     /\ delete_achievement db id
        = (db, server_error (OperationalError "no such table: achievements")))
  /\ (gallery db = None ->
     get_gallery db all = server_error (OperationalError "no such table: gallery")
     /\ delete_gallery db id
        = (db, server_error (OperationalError "no such table: gallery"))).
Proof.
  unfold get_contacts, get_faculty, get_faculty_by_id, delete_faculty, get_achievements,
    delete_achievement, get_gallery, delete_gallery.
  split_and!; intros ->; split_and?; reflexivity.
Qed.

Lemma missing_table_is_500_witness :
  faculty empty_store = None
  /\ get_faculty empty_store
     = Resp (JObj [("success", JBool false);
                   ("error", JStr "no such table: faculty")]) 500.
Proof.
  split; [reflexivity|].
  exact (proj1 (proj1 (proj2 (missing_table_is_500 empty_store 1 None)) eq_refl)).
Defined.

(** ** Updates and deletes by id *)






Lemma select_by_id_deleted {R : Type} (rowid : R -> Z) (id : Z) (t : table R) :
  select_by_id rowid id (delete_where_id rowid id t) = None.
Proof.
  apply select_by_id_absent. unfold delete_where_id. simpl.
  intros Hin. apply list_elem_of_fmap in Hin as (r & -> & Hr).
  by apply list_elem_of_filter in Hr as [Hne _].
Qed.

Lemma select_by_id_other {R : Type} (rowid : R -> Z) (id : Z) (r : R) (t : table R) :
  NoDup (map rowid (rows t)) -> r ∈ rows t -> rowid r <> id ->
  select_by_id rowid (rowid r) (delete_where_id rowid id t) = Some r.
Proof.
  intros Hnd Hr Hne. apply select_by_id_present.
  - unfold delete_where_id. simpl. eapply sublist_NoDup; [exact Hnd|].
    apply (fmap_sublist rowid), sublist_filter.
  - unfold delete_where_id. simpl. by apply list_elem_of_filter.
Qed.

(** X7: on a store the program maintains and for an id within the signed
    64-bit range, DELETE /api/faculty/{id} answers 200 and removes the rows
    of that id and no other, keeping the order of the rest; afterwards
    GET /api/faculty/{id} answers 404, and the lookup of any other row still
    answers 200 with that row. *)
Theorem delete_faculty_then_lookup (db : Db) (id : Z) :
  db_ok db ->
  int64 id ->
  exists db',
    delete_faculty db id
    = (db', Resp (JObj [("success", JBool true);
                        ("message", JStr "Faculty member deleted successfully!")]) 200)
    /\ table_rows (faculty db')
       = filter (fun r => fac_id r <> id) (table_rows (faculty db))
    /\ get_faculty_by_id db' id
       = Resp (JObj [("success", JBool false);
                     ("error", JStr "Faculty member not found")]) 404
    /\ forall r, r ∈ table_rows (faculty db) -> fac_id r <> id ->
       get_faculty_by_id db' (fac_id r)
       = Resp (JObj [("success", JBool true); ("data", faculty_json r)]) 200.
Proof.
  intros (_ & Hfac & _) Hrange. apply table_ok_inv in Hfac as (t & Ht & Hnd & _).
  unfold delete_faculty. rewrite Ht. simpl.
  rewrite bind_rowid_int64 by exact Hrange. simpl. eexists. split; [reflexivity|].
  unfold get_faculty_by_id. simpl. split; [reflexivity|]. split.
  - rewrite bind_rowid_int64 by exact Hrange. simpl. by rewrite select_by_id_deleted.
  - intros r Hr Hne. rewrite bind_rowid_present.
    + simpl. by rewrite select_by_id_other.
    + apply list_elem_of_fmap_2. unfold delete_where_id. simpl.
      by apply list_elem_of_filter.
Qed.

Lemma delete_faculty_then_lookup_witness :
  db_ok seeded /\ int64 1
  /\ exists db',
       delete_faculty seeded 1
       = (db', Resp (JObj [("success", JBool true);
                           ("message", JStr "Faculty member deleted successfully!")]) 200)
       /\ get_faculty_by_id db' 1
          = Resp (JObj [("success", JBool false);
                        ("error", JStr "Faculty member not found")]) 404.
Proof.
  assert (Hrange : int64 1) by (unfold int64; lia).
  split; [exact seeded_ok|]. split; [exact Hrange|].
  destruct (delete_faculty_then_lookup seeded 1 seeded_ok Hrange)
    as (db' & Hdel & _ & H404 & _).
  exists db'. auto.
Defined.

(** ** Login outcomes *)

(** X8: POST /api/login has three outcomes only: 200 with the user admin
    or staff, 401 with "Invalid username or password", or 500; a username
    that is given but is not a string (a number, null, a list) is a 500, the
    error being the one of calling strip on a value of that type. *)
Theorem login_outcomes (body : result json) :
  ((exists u, (u = "admin" \/ u = "staff")
              /\ admin_login body
                 = Resp (JObj [("success", JBool true);
                               ("message", JStr "Login successful");
                               ("user", JStr u)]) 200)
   \/ admin_login body
      = Resp (JObj [("success", JBool false);
                    ("error", JStr "Invalid username or password")]) 401
   \/ exists e, admin_login body = server_error e)
  /\ (forall data v,
        body = Ok (JObj data) -> dict_lookup "username" data = Some v ->
        (forall s, v <> JStr s) ->
        admin_login body = server_error (AttributeError (type_name v) "strip")).
Proof.
  split.
  - unfold admin_login. unfold_monad.
    destruct body as [data|e]; [|eauto].
    destruct (py_get data "username" (JStr "")) as [raw|e]; [|eauto].
    destruct (as_str "strip" raw) as [s|e]; [|eauto].
    destruct (py_get data "password" (JStr "")) as [password|e]; [|eauto].
    destruct (ADMIN_CREDENTIALS !! py_lower (py_strip s)) as [expected|] eqn:Hkey; [|auto].
    destruct (str_eq expected password); [|auto].
    left. exists (py_lower (py_strip s)). split; [|reflexivity].
    apply credentials_table in Hkey. tauto.
  - intros data v -> Hv Hns. unfold admin_login, py_get. unfold_monad. cbv beta iota.
    rewrite Hv. simpl.
    destruct v; try reflexivity. by destruct (Hns s).
Qed.

Lemma login_outcomes_witness :
  Ok (JObj [("username", JNull); ("password", JStr "smvec2024")])
  = Ok (JObj [("username", JNull); ("password", JStr "smvec2024")])
  /\ dict_lookup "username" [("username", JNull); ("password", JStr "smvec2024")]
     = Some JNull
  /\ (forall s, JNull <> JStr s)
  /\ admin_login (Ok (JObj [("username", JNull); ("password", JStr "smvec2024")]))
     = Resp (JObj [("success", JBool false);
                   ("error", JStr "'NoneType' object has no attribute 'strip'")]) 500.
Proof.
  assert (H : forall s, JNull <> JStr s) by discriminate.
  split; [reflexivity|]. split; [reflexivity|]. split; [exact H|].
  exact (proj2 (login_outcomes
                  (Ok (JObj [("username", JNull); ("password", JStr "smvec2024")])))
           [("username", JNull); ("password", JStr "smvec2024")] JNull
           eq_refl eq_refl H).
Defined.

(** ** What a request can change *)

Lemma route_frame (db : Db) (now : string) (req : request) :
  (target req <> Some Contact ->
     contact_messages (route db now req).1 = contact_messages db)
  /\ (target req <> Some Faculty -> faculty (route db now req).1 = faculty db)
  /\ (target req <> Some Achievements ->
     achievements (route db now req).1 = achievements db)
  /\ (target req <> Some Gallery -> gallery (route db now req).1 = gallery db).
Proof.
  destruct req; simpl; split_and!; intros Ht; try reflexivity; try congruence;
    unfold submit_contact, add_faculty, update_faculty, delete_faculty, add_achievement,
      update_achievement, delete_achievement, add_gallery, update_gallery, delete_gallery;
    run_handler; reflexivity.
Qed.

(** X9: a request changes no table but its own: the faculty table is as it
    was after every request other than a POST, PUT or DELETE on faculty, and
    likewise for achievements, gallery and contact_messages; requests that
    read, and the login, change none. *)
Theorem request_changes_own_table_only (db : Db) (now : string) (req : request) :
  (target req <> Some Contact ->
     contact_messages (route db now req).1 = contact_messages db)
  /\ (target req <> Some Faculty -> faculty (route db now req).1 = faculty db)
  /\ (target req <> Some Achievements ->
     achievements (route db now req).1 = achievements db)
  /\ (target req <> Some Gallery -> gallery (route db now req).1 = gallery db)
  /\ (target req = None -> (route db now req).1 = db).
Proof.
  destruct (route_frame db now req) as (Hc & Hf & Ha & Hg).
  split_and!; try assumption.
  intros Ht. destruct req; simpl in *; try discriminate; reflexivity.
Qed.

Lemma request_changes_own_table_only_witness :
  target (PUT_faculty 1 (Ok (JObj [("name", JStr "A")]))) <> Some Gallery
  /\ gallery (route seeded "2024-06-01 10:00:00"
                (PUT_faculty 1 (Ok (JObj [("name", JStr "A")])))).1
     = gallery seeded.
Proof.
  assert (H : target (PUT_faculty 1 (Ok (JObj [("name", JStr "A")]))) <> Some Gallery)
    by discriminate.
  split; [exact H|].
  exact (proj1 (proj2 (proj2 (proj2
    (request_changes_own_table_only seeded "2024-06-01 10:00:00" _)))) H).
Defined.

(** X10: a request that does not answer 200 or 201 has changed nothing:
    after every request the store is as it was, or the response is a JSON
    body with status 200 or 201. *)
Theorem refused_request_changes_nothing (db : Db) (now : string) (req : request) :
  (route db now req).1 = db
  \/ exists body,
       (route db now req).2 = Resp body 200 \/ (route db now req).2 = Resp body 201.
Proof.
  destruct req; simpl; try (left; reflexivity);
    unfold submit_contact, add_faculty, update_faculty, delete_faculty, add_achievement,
      update_achievement, delete_achievement, add_gallery, update_gallery, delete_gallery,
      created, done_message;
    run_handler; try (left; reflexivity); right; eauto.
Qed.

(** ** Ids are never handed out twice *)

Lemma insert_faculty_seq (t t' : table faculty_row)
    (name designation subject bio email : sqlval) (is_hod id : Z) :
  insert_faculty t name designation subject bio email is_hod = Ok (t', id) ->
  seq t < id /\ seq t' = id.
Proof.
  unfold insert_faculty. run_handler; intros [= <- <-].
  split; [apply next_rowid_after_seq | reflexivity].
Qed.

Lemma insert_achievement_seq (now : string) (t t' : table achievement_row)
    (icon title description category : sqlval) (is_active id : Z) :
  insert_achievement now t icon title description category is_active = Ok (t', id) ->
  seq t < id /\ seq t' = id.
Proof.
  unfold insert_achievement. run_handler; intros [= <- <-].
  split; [apply next_rowid_after_seq | reflexivity].
Qed.

Lemma insert_gallery_seq (now : string) (t t' : table gallery_row)
    (image_url caption event_date : sqlval) (is_active id : Z) :
  insert_gallery now t image_url caption event_date is_active = Ok (t', id) ->
  seq t < id /\ seq t' = id.
Proof.
  unfold insert_gallery. run_handler; intros [= <- <-].
  split; [apply next_rowid_after_seq | reflexivity].
Qed.

Lemma insert_contact_seq (now : string) (t t' : table contact_row)
    (first_name last_name email phone subject message : sqlval) (newsletter id : Z) :
  insert_contact now t first_name last_name email phone subject message newsletter
  = Ok (t', id) ->
  seq t < id /\ seq t' = id.
Proof.
  intros H. apply insert_contact_appends in H as (row & -> & _ & -> & _).
  split; [apply next_rowid_after_seq | reflexivity].
Qed.

Lemma update_where_id_seq {R : Type} (rowid : R -> Z) (id : Z) (new_row : R -> result R)
    (t t' : table R) :
  update_where_id rowid id new_row t = Ok t' -> seq t' = seq t.
Proof.
  unfold update_where_id. unfold_monad.
  destruct (update_rows rowid id new_row (rows t)); [|discriminate]. by intros [= <-].
Qed.

(** Closes the branches of a handler for the counters: a refusal leaves the
    store as it is and announces no id, a write moves one counter. *)
Ltac counter_case :=
  repeat match goal with
  | H : open_table _ _ = Ok _ |- _ => apply open_table_Ok in H
  | H : insert_contact _ _ _ _ _ _ _ _ _ = Ok _ |- _ => apply insert_contact_seq in H
  | H : insert_faculty _ _ _ _ _ _ _ = Ok _ |- _ => apply insert_faculty_seq in H
  | H : insert_achievement _ _ _ _ _ _ _ = Ok _ |- _ => apply insert_achievement_seq in H
  | H : insert_gallery _ _ _ _ _ _ = Ok _ |- _ => apply insert_gallery_seq in H
  | H : update_where_id _ _ _ _ = Ok _ |- _ => apply update_where_id_seq in H
  | H : created_id _ = Some _ |- _ =>
      unfold created, jsonify in H; cbn in H; first [discriminate | injection H as <-]
  end;
  (split;
   [ intros k; destruct k; simpl;
     repeat match goal with H : _ = Some _ |- _ => rewrite H end; simpl; lia
   | intros k id Hid; cbn in Hid; try discriminate;
     injection Hid as <- <-; simpl;
     repeat match goal with H : _ = Some _ |- _ => rewrite H end; simpl; lia ]).

Lemma route_counter (db : Db) (now : string) (req : request) :
  (forall k, counter db k <= counter (route db now req).1 k)
  /\ (forall k id,
        issued req (route db now req).2 = Some (k, id) ->
        counter db k < id /\ counter (route db now req).1 k = id).
Proof.
  destruct req; simpl; try (split; [intros; lia | discriminate]);
    unfold issued; simpl;
    unfold submit_contact, add_faculty, update_faculty, delete_faculty, add_achievement,
      update_achievement, delete_achievement, add_gallery, update_gallery, delete_gallery;
    run_handler; counter_case.
Qed.

Lemma serve_issued_above (history : list (string * request)) (db : Db) (j : nat)
    (now : string) (req : request) (r : response) (k : kind) (id : Z) :
  history !! j = Some (now, req) ->
  (serve db history).2 !! j = Some r ->
  issued req r = Some (k, id) ->
  counter db k < id.
Proof.
  revert db j. induction history as [|[now0 req0] rest IH]; intros db j Hreq Hr Hid.
  - by rewrite lookup_nil in Hreq.
  - simpl in Hr. pose proof (route_counter db now0 req0) as [Hmono Hnew].
    destruct (route db now0 req0) as [db1 r0]. simpl in Hmono, Hnew.
    specialize (IH db1). destruct (serve db1 rest) as [db2 rs]. simpl in Hr, IH.
    destruct j as [|j]; simpl in Hreq, Hr.
    + injection Hreq as <- <-. injection Hr as <-. by apply Hnew in Hid as [Hlt _].
    + specialize (IH j Hreq Hr Hid). specialize (Hmono k). lia.
Qed.

(** X11: along any history of requests on any store, the ids that the
    creates of one table announce in their 201 responses increase strictly:
    an id is never handed out twice, also not after its row was deleted. *)
Theorem issued_ids_increase (db : Db) (history : list (string * request)) (i j : nat)
    (now1 now2 : string) (req1 req2 : request) (r1 r2 : response) (k : kind)
    (id1 id2 : Z) :
  (i < j)%nat ->
  history !! i = Some (now1, req1) -> (serve db history).2 !! i = Some r1 ->
  history !! j = Some (now2, req2) -> (serve db history).2 !! j = Some r2 ->
  issued req1 r1 = Some (k, id1) -> issued req2 r2 = Some (k, id2) ->
  id1 < id2.
Proof.
  revert db i j. induction history as [|[now0 req0] rest IH];
    intros db i j Hij Hq1 Hr1 Hq2 Hr2 H1 H2.
  - by rewrite lookup_nil in Hq1.
  - simpl in Hr1, Hr2. pose proof (route_counter db now0 req0) as [_ Hnew].
    destruct (route db now0 req0) as [db1 r0]. simpl in Hnew.
    specialize (IH db1).
    pose proof (serve_issued_above rest db1) as Habove.
    destruct (serve db1 rest) as [db2 rs]. simpl in Hr1, Hr2, IH, Habove.
    destruct j as [|j]; [lia|]. simpl in Hq2, Hr2. destruct i as [|i]; simpl in Hq1, Hr1.
    + injection Hq1 as <- <-. injection Hr1 as <-.
      apply Hnew in H1 as [_ <-]. by eapply Habove.
    + eapply (IH i j); eauto. lia.
Qed.

Lemma issued_ids_increase_witness :
  let body := Ok (JObj [("name", JStr "Dr. Meena Iyer");
                        ("designation", JStr "Assistant Professor");
                        ("subject", JStr "Graph Learning")]) in
  let history := [("2024-06-01 10:00:00", POST_faculty body);
                  ("2024-06-01 10:05:00", DELETE_faculty 10);
                  ("2024-06-01 10:10:00", POST_faculty body)] in
  (0 < 2)%nat
  /\ history !! 0%nat = Some ("2024-06-01 10:00:00", POST_faculty body)
  /\ (serve seeded history).2 !! 0%nat
     = Some (created "Faculty member added successfully!" 10)
  /\ history !! 2%nat = Some ("2024-06-01 10:10:00", POST_faculty body)
  /\ (serve seeded history).2 !! 2%nat
     = Some (created "Faculty member added successfully!" 11)
  /\ issued (POST_faculty body) (created "Faculty member added successfully!" 10)
     = Some (Faculty, 10)
  /\ issued (POST_faculty body) (created "Faculty member added successfully!" 11)
     = Some (Faculty, 11)
  /\ 10 < 11.
Proof.
  intros body history.
  assert (H0 : (0 < 2)%nat) by lia.
  assert (Hr1 : (serve seeded history).2 !! 0%nat
                = Some (created "Faculty member added successfully!" 10))
    by (vm_compute; reflexivity).
  assert (Hr2 : (serve seeded history).2 !! 2%nat
                = Some (created "Faculty member added successfully!" 11))
    by (vm_compute; reflexivity).
  split; [exact H0|]. split; [reflexivity|]. split; [exact Hr1|].
  split; [reflexivity|]. split; [exact Hr2|]. split; [reflexivity|].
  split; [reflexivity|].
  exact (issued_ids_increase seeded history 0 2 _ _ _ _ _ _ Faculty 10 11 H0
           eq_refl Hr1 eq_refl Hr2 eq_refl eq_refl).
Defined.

(** ** Creation times *)

Lemma rows_kept_same {R : Type} (rowid : R -> Z) (created_at : R -> string)
    (now : string) (l : list R) :
  rows_kept rowid created_at now l l.
Proof. intros r Hr. left. eauto. Qed.

Lemma rows_kept_append {R : Type} (rowid : R -> Z) (created_at : R -> string)
    (now : string) (t : table R) (row : R) :
  rowid row = next_rowid rowid t -> created_at row = now ->
  rows_kept rowid created_at now (rows t) (rows t ++ [row]).
Proof.
  intros Hid Hnow r Hr. apply elem_of_app in Hr as [Hr|Hr]; [left; eauto|].
  apply list_elem_of_singleton in Hr as ->. right. split; [|exact Hnow].
  rewrite Hid. apply next_rowid_fresh.
Qed.

Lemma rows_kept_delete {R : Type} (rowid : R -> Z) (created_at : R -> string)
    (now : string) (id : Z) (t : table R) :
  rows_kept rowid created_at now (rows t) (rows (delete_where_id rowid id t)).
Proof.
  intros r Hr. simpl in Hr. apply list_elem_of_filter in Hr as [_ Hr]. left. eauto.
Qed.

Lemma update_rows_related {R : Type} (rowid : R -> Z) (id : Z) (new_row : R -> result R)
    (P : R -> R -> Prop) (l l' : list R) :
  (forall r, P r r) -> (forall r r', new_row r = Ok r' -> P r r') ->
  update_rows rowid id new_row l = Ok l' -> Forall2 P l l'.
Proof.
  intros Hrefl Hnew. revert l'. induction l as [|r l IH]; intros l'; simpl.
  - intros [= <-]. constructor.
  - unfold_monad.
    destruct (if rowid r =? id then new_row r else Ok r) as [r1|] eqn:Hr1; [|discriminate].
    destruct (update_rows rowid id new_row l) as [rest|]; [|discriminate].
    intros [= <-]. constructor; [|by apply IH].
    destruct (rowid r =? id); [by apply Hnew | by injection Hr1 as <-].
Qed.

Lemma Forall2_elem_r {A B : Type} (P : A -> B -> Prop) (l : list A) (l' : list B) (y : B) :
  Forall2 P l l' -> y ∈ l' -> exists x, x ∈ l /\ P x y.
Proof.
  induction 1 as [|x y' l l' Hxy _ IH]; intros Hy.
  - by apply elem_of_nil in Hy.
  - apply elem_of_cons in Hy as [-> | Hy].
    + exists x. split; [by left | exact Hxy].
    + destruct (IH Hy) as (x' & Hx' & HP). exists x'. split; [by right | exact HP].
Qed.

Lemma rows_kept_update {R : Type} (rowid : R -> Z) (created_at : R -> string)
    (now : string) (id : Z) (new_row : R -> result R) (t t' : table R) :
  (forall r r', new_row r = Ok r' ->
     rowid r = rowid r' /\ created_at r = created_at r') ->
  update_where_id rowid id new_row t = Ok t' ->
  rows_kept rowid created_at now (rows t) (rows t').
Proof.
  intros Hnew. unfold update_where_id. unfold_monad.
  destruct (update_rows rowid id new_row (rows t)) as [l'|] eqn:Hl; [|discriminate].
  intros [= <-]. simpl. intros r' Hr'. left.
  apply (Forall2_elem_r
           (fun r r' => rowid r = rowid r' /\ created_at r = created_at r')
           (rows t) l'); [|exact Hr'].
  eapply update_rows_related; [| |exact Hl]; [done | exact Hnew].
Qed.

Lemma insert_achievement_appends (now : string) (t t' : table achievement_row)
    (icon title description category : sqlval) (is_active id : Z) :
  insert_achievement now t icon title description category is_active = Ok (t', id) ->
  exists row,
    t' = Table (rows t ++ [row]) id
    /\ ach_id row = next_rowid ach_id t /\ ach_created_at row = now.
Proof.
  unfold insert_achievement. run_handler; intros [= <- <-]. eexists. eauto.
Qed.

Lemma insert_gallery_appends (now : string) (t t' : table gallery_row)
    (image_url caption event_date : sqlval) (is_active id : Z) :
  insert_gallery now t image_url caption event_date is_active = Ok (t', id) ->
  exists row,
    t' = Table (rows t ++ [row]) id
    /\ gal_id row = next_rowid gal_id t /\ gal_created_at row = now.
Proof.
  unfold insert_gallery. run_handler; intros [= <- <-]. eexists. eauto.
Qed.

Lemma set_achievement_row_created (icon title description category : sqlval)
    (is_active : Z) (r r' : achievement_row) :
  set_achievement_row icon title description category is_active r = Ok r' ->
  ach_id r = ach_id r' /\ ach_created_at r = ach_created_at r'.
Proof. unfold set_achievement_row. run_handler; intros [= <-]; auto. Qed.

Lemma set_gallery_row_created (image_url caption event_date : sqlval)
    (is_active : Z) (r r' : gallery_row) :
  set_gallery_row image_url caption event_date is_active r = Ok r' ->
  gal_id r = gal_id r' /\ gal_created_at r = gal_created_at r'.
Proof. unfold set_gallery_row. run_handler; intros [= <-]; auto. Qed.

(** X12: createdAt is set once.  After any request served at time [now],
    every row of contact_messages, achievements and gallery is a row that
    was there before, under the same id and with the same creation time, or
    a new row under an id that no row had, created at [now]. *)
Theorem created_at_never_changes (db : Db) (now : string) (req : request) :
  rows_kept cm_id cm_created_at now
    (table_rows (contact_messages db)) (table_rows (contact_messages (route db now req).1))
  /\ rows_kept ach_id ach_created_at now
       (table_rows (achievements db)) (table_rows (achievements (route db now req).1))
  /\ rows_kept gal_id gal_created_at now
       (table_rows (gallery db)) (table_rows (gallery (route db now req).1)).
Proof.
  destruct (route_frame db now req) as (Hc & _ & Ha & Hg).
  split_and!.
  - destruct (decide (target req = Some Contact)) as [Ht|Ht];
      [|rewrite (Hc Ht); apply rows_kept_same].
    destruct req; try discriminate. simpl.
    unfold submit_contact. run_handler; try apply rows_kept_same.
    match goal with H : open_table _ _ = Ok _ |- _ =>
      apply open_table_Ok in H; rewrite H end.
    match goal with H : insert_contact _ _ _ _ _ _ _ _ _ = Ok _ |- _ =>
      apply insert_contact_appends in H as (row & -> & Hid & -> & _ & Hnow) end.
    simpl. by apply rows_kept_append.
  - destruct (decide (target req = Some Achievements)) as [Ht|Ht];
      [|rewrite (Ha Ht); apply rows_kept_same].
    destruct req; try discriminate; simpl.
    + unfold add_achievement. run_handler; try apply rows_kept_same.
      match goal with H : open_table _ _ = Ok _ |- _ =>
        apply open_table_Ok in H; rewrite H end.
      match goal with H : insert_achievement _ _ _ _ _ _ _ = Ok _ |- _ =>
        apply insert_achievement_appends in H as (row & -> & Hid & Hnow) end.
      simpl. by apply rows_kept_append.
    + unfold update_achievement. run_handler; try apply rows_kept_same.
      match goal with H : open_table _ _ = Ok _ |- _ =>
        apply open_table_Ok in H; rewrite H end.
      simpl. eapply rows_kept_update; [|eassumption].
      intros r r'. apply set_achievement_row_created.
    + unfold delete_achievement. run_handler; try apply rows_kept_same.
      match goal with H : open_table _ _ = Ok _ |- _ =>
        apply open_table_Ok in H; rewrite H end.
      apply rows_kept_delete.
  - destruct (decide (target req = Some Gallery)) as [Ht|Ht];
      [|rewrite (Hg Ht); apply rows_kept_same].
    destruct req; try discriminate; simpl.
    + unfold add_gallery. run_handler; try apply rows_kept_same.
      match goal with H : open_table _ _ = Ok _ |- _ =>
        apply open_table_Ok in H; rewrite H end.
      match goal with H : insert_gallery _ _ _ _ _ _ = Ok _ |- _ =>
        apply insert_gallery_appends in H as (row & -> & Hid & Hnow) end.
      simpl. by apply rows_kept_append.
    + unfold update_gallery. run_handler; try apply rows_kept_same.
      match goal with H : open_table _ _ = Ok _ |- _ =>
        apply open_table_Ok in H; rewrite H end.
      simpl. eapply rows_kept_update; [|eassumption].
      intros r r'. apply set_gallery_row_created.
    + unfold delete_gallery. run_handler; try apply rows_kept_same.
      match goal with H : open_table _ _ = Ok _ |- _ =>
        apply open_table_Ok in H; rewrite H end.
      apply rows_kept_delete.
Qed.

(** ** Deactivating a row *)






(** ** Values that are not strings *)



(** ** Deleting, listing, creating *)

(** X15: on a store the program maintains and for an id within the signed
    64-bit range, DELETE on an achievement or a gallery image answers 200,
    and the full listing (all=true) that follows holds exactly the rows of
    the other ids, newest first. *)
Theorem delete_then_listing (db : Db) (id : Z) :
  db_ok db ->
  int64 id ->
  (exists db' l,
     delete_achievement db id
     = (db', Resp (JObj [("success", JBool true);
                         ("message", JStr "Achievement deleted successfully!")]) 200)
     /\ get_achievements db' (Some "true")
        = Resp (JObj [("success", JBool true);
                      ("data", JArr (map achievement_json l));
                      ("count", JInt (Z.of_nat (length (map achievement_json l))))]) 200
     /\ l ≡ₚ filter (fun r => ach_id r <> id) (table_rows (achievements db))
     /\ StronglySorted (created_desc ach_created_at) l)
  /\ (exists db' l,
     delete_gallery db id
     = (db', Resp (JObj [("success", JBool true);
                         ("message", JStr "Gallery image deleted successfully!")]) 200)
     /\ get_gallery db' (Some "true")
        = Resp (JObj [("success", JBool true);
                      ("data", JArr (map gallery_json l));
                      ("count", JInt (Z.of_nat (length (map gallery_json l))))]) 200
     /\ l ≡ₚ filter (fun r => gal_id r <> id) (table_rows (gallery db))
     /\ StronglySorted (created_desc gal_created_at) l).
Proof.
  intros (_ & _ & Hach & Hgal) Hrange.
  apply table_ok_inv in Hach as (ta & Hta & _).
  apply table_ok_inv in Hgal as (tg & Htg & _).
  unfold delete_achievement, delete_gallery, get_achievements, get_gallery.
  rewrite Hta, Htg. simpl. rewrite !bind_rowid_int64 by exact Hrange. simpl. split.
  - eexists; eexists. split; [reflexivity|]. split; [reflexivity|].
    split; [apply order_by_perm | apply order_by_sorted; apply _].
  - eexists; eexists. split; [reflexivity|]. split; [reflexivity|].
    split; [apply order_by_perm | apply order_by_sorted; apply _].
Qed.

Lemma delete_then_listing_witness :
  db_ok seeded /\ int64 2
  /\ exists db' l,
       delete_gallery seeded 2
       = (db', Resp (JObj [("success", JBool true);
                           ("message", JStr "Gallery image deleted successfully!")]) 200)
       /\ get_gallery db' (Some "true")
          = Resp (JObj [("success", JBool true);
                        ("data", JArr (map gallery_json l));
                        ("count", JInt (Z.of_nat (length (map gallery_json l))))]) 200
       /\ l ≡ₚ filter (fun r => gal_id r <> 2) (table_rows (gallery seeded))
       /\ StronglySorted (created_desc gal_created_at) l.
Proof.
  assert (Hrange : int64 2) by (unfold int64; lia).
  split; [exact seeded_ok|]. split; [exact Hrange|].
  exact (proj2 (delete_then_listing seeded 2 seeded_ok Hrange)).
Defined.

Lemma insert_faculty_appends (t t' : table faculty_row)
    (name designation subject bio email : sqlval) (is_hod id : Z) :
  insert_faculty t name designation subject bio email is_hod = Ok (t', id) ->
  exists row, t' = Table (rows t ++ [row]) id /\ fac_id row = id /\ id = next_rowid fac_id t.
Proof.
  unfold insert_faculty. run_handler; intros [= <- <-]. eexists. eauto.
Qed.

Lemma filter_appended {R : Type} (rowid : R -> Z) (t : table R) (row : R) :
  rowid row = next_rowid rowid t ->
  filter (fun r => rowid r <> next_rowid rowid t) (rows t ++ [row]) = rows t.
Proof.
  intros Hid. rewrite filter_app, filter_cons, filter_nil.
  destruct (decide (rowid row <> next_rowid rowid t)); [contradiction|].
  rewrite app_nil_r. pose proof (next_rowid_above rowid t) as Habove.
  induction Habove as [|r l Hr _ IH]; [reflexivity|].
  rewrite filter_cons, IH. destruct (decide (rowid r <> next_rowid rowid t)) as [_|Heq];
    [reflexivity|]. exfalso. apply Heq. lia.
Qed.

Lemma bind_rowid_appended {R : Type} (rowid : R -> Z) (t : table R) (row : R) (s : Z) :
  bind_rowid rowid (Table (rows t ++ [row]) s) (rowid row) = Ok (rowid row).
Proof.
  apply bind_rowid_present. simpl. rewrite map_app. apply elem_of_app. right. by left.
Qed.

Lemma insert_achievement_rowid (now : string) (t t' : table achievement_row)
    (icon title description category : sqlval) (is_active id : Z) :
  insert_achievement now t icon title description category is_active = Ok (t', id) ->
  id = next_rowid ach_id t.
Proof. unfold insert_achievement. run_handler; by intros [= <- <-]. Qed.

Lemma insert_gallery_rowid (now : string) (t t' : table gallery_row)
    (image_url caption event_date : sqlval) (is_active id : Z) :
  insert_gallery now t image_url caption event_date is_active = Ok (t', id) ->
  id = next_rowid gal_id t.
Proof. unfold insert_gallery. run_handler; by intros [= <- <-]. Qed.

(** X16: a create that answered 201 with an id is undone, as far as the
    rows go, by the DELETE of that id: the table then holds the rows it held
    before the create, in the same order.  (The counter stays at the id, see
    X11.) *)
Theorem create_then_delete (db db1 : Db) (now : string) (body : result json) (id : Z) :
  (add_faculty db body
   = (db1, Resp (JObj [("success", JBool true);
                       ("message", JStr "Faculty member added successfully!");
                       ("id", JInt id)]) 201) ->
   table_rows (faculty (delete_faculty db1 id).1) = table_rows (faculty db))
  /\ (add_achievement db now body
      = (db1, Resp (JObj [("success", JBool true);
                          ("message", JStr "Achievement added successfully!");
                          ("id", JInt id)]) 201) ->
      table_rows (achievements (delete_achievement db1 id).1)
      = table_rows (achievements db))
  /\ (add_gallery db now body
      = (db1, Resp (JObj [("success", JBool true);
                          ("message", JStr "Gallery image added successfully!");
                          ("id", JInt id)]) 201) ->
      table_rows (gallery (delete_gallery db1 id).1) = table_rows (gallery db)).
Proof.
  split_and!.
  - unfold add_faculty, created, bad_request, server_error, jsonify.
    run_handler; intros H; try discriminate. injection H as <- <-.
    match goal with H : open_table _ _ = Ok _ |- _ =>
      apply open_table_Ok in H; rewrite H end.
    match goal with H : insert_faculty _ _ _ _ _ _ _ = Ok _ |- _ =>
      apply insert_faculty_appends in H as (row & -> & Hid & ->) end.
    unfold delete_faculty. simpl. rewrite <- Hid at 3. rewrite bind_rowid_appended.
    simpl. rewrite Hid. by apply filter_appended.
  - unfold add_achievement, created, bad_request, server_error, jsonify.
    run_handler; intros H; try discriminate. injection H as <- <-.
    match goal with H : open_table _ _ = Ok _ |- _ =>
      apply open_table_Ok in H; rewrite H end.
    match goal with H : insert_achievement _ _ _ _ _ _ _ = Ok _ |- _ =>
      pose proof (insert_achievement_rowid _ _ _ _ _ _ _ _ _ H) as ->;
      apply insert_achievement_appends in H as (row & -> & Hid & _) end.
    unfold delete_achievement. simpl. rewrite <- Hid at 3. rewrite bind_rowid_appended.
    simpl. rewrite Hid. by apply filter_appended.
  - unfold add_gallery, created, bad_request, server_error, jsonify.
    run_handler; intros H; try discriminate. injection H as <- <-.
    match goal with H : open_table _ _ = Ok _ |- _ =>
      apply open_table_Ok in H; rewrite H end.
    match goal with H : insert_gallery _ _ _ _ _ _ = Ok _ |- _ =>
      pose proof (insert_gallery_rowid _ _ _ _ _ _ _ _ H) as ->;
      apply insert_gallery_appends in H as (row & -> & Hid & _) end.
    unfold delete_gallery. simpl. rewrite <- Hid at 3. rewrite bind_rowid_appended.
    simpl. rewrite Hid. by apply filter_appended.
Qed.

Lemma create_then_delete_witness :
  let body := Ok (JObj [("name", JStr "Dr. Meena Iyer");
                        ("designation", JStr "Assistant Professor");
                        ("subject", JStr "Graph Learning")]) in
  exists db1,
    add_faculty seeded body
    = (db1, Resp (JObj [("success", JBool true);
                        ("message", JStr "Faculty member added successfully!");
                        ("id", JInt 10)]) 201)
    /\ table_rows (faculty (delete_faculty db1 10).1) = table_rows (faculty seeded).
Proof.
  intros body.
  assert (H : add_faculty seeded body
              = ((add_faculty seeded body).1,
                 Resp (JObj [("success", JBool true);
                             ("message", JStr "Faculty member added successfully!");
                             ("id", JInt 10)]) 201))
    by (vm_compute; reflexivity).
  exists (add_faculty seeded body).1. split; [exact H|].
  exact (proj1 (create_then_delete seeded _ "2024-06-01 10:00:00" body 10) H).
Defined.

(** ** PUT and DELETE twice *)

Lemma update_rows_again {R : Type} (rowid : R -> Z) (id : Z) (new_row : R -> result R)
    (l l' : list R) :
  (forall r r', new_row r = Ok r' -> rowid r' = rowid r /\ new_row r' = Ok r') ->
  update_rows rowid id new_row l = Ok l' ->
  update_rows rowid id new_row l' = Ok l'.
Proof.
  intros Hnew. revert l'. induction l as [|r l IH]; intros l'; simpl.
  - by intros [= <-].
  - unfold_monad. destruct (rowid r =? id) eqn:Hid.
    + destruct (new_row r) as [r1|] eqn:Hr1; [|discriminate].
      destruct (update_rows rowid id new_row l) as [rest|]; [|discriminate].
      intros [= <-]. simpl. unfold_monad. destruct (Hnew _ _ Hr1) as [Hsame Hagain].
      by rewrite Hsame, Hid, Hagain, (IH rest eq_refl).
    + destruct (update_rows rowid id new_row l) as [rest|]; [|discriminate].
      intros [= <-]. simpl. unfold_monad. by rewrite Hid, (IH rest eq_refl).
Qed.

Lemma update_where_id_again {R : Type} (rowid : R -> Z) (id : Z)
    (new_row : R -> result R) (t t' : table R) :
  (forall r r', new_row r = Ok r' -> rowid r' = rowid r /\ new_row r' = Ok r') ->
  update_where_id rowid id new_row t = Ok t' ->
  update_where_id rowid id new_row t' = Ok t'.
Proof.
  intros Hnew. unfold update_where_id. unfold_monad.
  destruct (update_rows rowid id new_row (rows t)) as [l'|] eqn:Hl; [|discriminate].
  intros [= <-]. simpl. by rewrite (update_rows_again _ _ _ _ _ Hnew Hl).
Qed.

Lemma set_faculty_row_again (name designation subject bio email : sqlval) (is_hod : Z)
    (r r' : faculty_row) :
  set_faculty_row name designation subject bio email is_hod r = Ok r' ->
  fac_id r' = fac_id r
  /\ set_faculty_row name designation subject bio email is_hod r' = Ok r'.
Proof.
  unfold set_faculty_row. unfold_monad.
  destruct (not_null _ (text_affinity name)); [|discriminate].
  destruct (not_null _ (text_affinity designation)); [|discriminate].
  destruct (not_null _ (text_affinity subject)); [|discriminate].
  by intros [= <-].
Qed.

Lemma set_achievement_row_again (icon title description category : sqlval)
    (is_active : Z) (r r' : achievement_row) :
  set_achievement_row icon title description category is_active r = Ok r' ->
  ach_id r' = ach_id r
  /\ set_achievement_row icon title description category is_active r' = Ok r'.
Proof.
  unfold set_achievement_row. unfold_monad.
  destruct (not_null _ (text_affinity title)); [|discriminate].
  destruct (not_null _ (text_affinity description)); [|discriminate].
  by intros [= <-].
Qed.

Lemma set_gallery_row_again (image_url caption event_date : sqlval) (is_active : Z)
    (r r' : gallery_row) :
  set_gallery_row image_url caption event_date is_active r = Ok r' ->
  gal_id r' = gal_id r
  /\ set_gallery_row image_url caption event_date is_active r' = Ok r'.
Proof.
  unfold set_gallery_row. unfold_monad.
  destruct (not_null _ (text_affinity image_url)); [|discriminate].
  destruct (not_null _ (text_affinity caption)); [|discriminate].
  by intros [= <-].
Qed.

Lemma delete_where_id_again {R : Type} (rowid : R -> Z) (id : Z) (t : table R) :
  delete_where_id rowid id (delete_where_id rowid id t) = delete_where_id rowid id t.
Proof.
  apply delete_where_id_absent. unfold delete_where_id. simpl.
  intros Hin. apply list_elem_of_fmap in Hin as (r & -> & Hr).
  by apply list_elem_of_filter in Hr as [Hne _].
Qed.

(** Steps through the two runs of an update at once: the reads of the
    body, then the binding of the parameters. *)
Ltac twice_reads data :=
  repeat match goal with
  | |- context [py_get data ?k ?d] => destruct (py_get data k d); simpl; [|reflexivity]
  end.

Ltac twice_binds Ht :=
  repeat match goal with
  | |- context [bind_param ?i ?v] =>
      destruct (bind_param i v); simpl; [|by rewrite ?Ht]
  end.

(** X17: for an id within the signed 64-bit range, a PUT that answered
    200, sent again with the same body, answers 200 again and leaves the
    store as the first left it; a DELETE sent again gives the response of
    the first and leaves the store as the first left it. *)
Theorem put_and_delete_twice (db db1 : Db) (id : Z) (body : result json) (answer : json) :
  int64 id ->
  (update_faculty db id body = (db1, Resp answer 200) ->
   update_faculty db1 id body = (db1, Resp answer 200))
  /\ (update_achievement db id body = (db1, Resp answer 200) ->
      update_achievement db1 id body = (db1, Resp answer 200))
  /\ (update_gallery db id body = (db1, Resp answer 200) ->
      update_gallery db1 id body = (db1, Resp answer 200))
  /\ delete_faculty (delete_faculty db id).1 id = delete_faculty db id
  /\ delete_achievement (delete_achievement db id).1 id = delete_achievement db id
  /\ delete_gallery (delete_gallery db id).1 id = delete_gallery db id.
Proof.
  intros Hrange. split_and!.
  - intros H.
    assert (Hagain : update_faculty (update_faculty db id body).1 id body
                     = update_faculty db id body).
    { clear H. unfold update_faculty. unfold_monad.
      destruct body as [data|e]; [|reflexivity].
      twice_reads data. destruct (faculty db) as [t|] eqn:Ht; simpl; [|by rewrite Ht].
      twice_binds Ht. rewrite (bind_rowid_int64 fac_id t) by exact Hrange.
      match goal with |- context [update_where_id fac_id id ?f t] =>
        destruct (update_where_id fac_id id f t) as [t'|e] eqn:Hup; simpl;
        [rewrite bind_rowid_int64 by exact Hrange;
         rewrite (update_where_id_again fac_id id f t t'
                    (set_faculty_row_again _ _ _ _ _ _) Hup)
        | by rewrite Ht; simpl; rewrite bind_rowid_int64 by exact Hrange; rewrite Hup] end.
      reflexivity. }
    by rewrite H in Hagain.
  - intros H.
    assert (Hagain : update_achievement (update_achievement db id body).1 id body
                     = update_achievement db id body).
    { clear H. unfold update_achievement. unfold_monad.
      destruct body as [data|e]; [|reflexivity].
      twice_reads data. destruct (achievements db) as [t|] eqn:Ht; simpl;
        [|by rewrite Ht].
      twice_binds Ht. rewrite (bind_rowid_int64 ach_id t) by exact Hrange.
      match goal with |- context [update_where_id ach_id id ?f t] =>
        destruct (update_where_id ach_id id f t) as [t'|e] eqn:Hup; simpl;
        [rewrite bind_rowid_int64 by exact Hrange;
         rewrite (update_where_id_again ach_id id f t t'
                    (set_achievement_row_again _ _ _ _ _) Hup)
        | by rewrite Ht; simpl; rewrite bind_rowid_int64 by exact Hrange; rewrite Hup] end.
      reflexivity. }
    by rewrite H in Hagain.
  - intros H.
    assert (Hagain : update_gallery (update_gallery db id body).1 id body
                     = update_gallery db id body).
    { clear H. unfold update_gallery. unfold_monad.
      destruct body as [data|e]; [|reflexivity].
      twice_reads data. destruct (gallery db) as [t|] eqn:Ht; simpl; [|by rewrite Ht].
      twice_binds Ht. rewrite (bind_rowid_int64 gal_id t) by exact Hrange.
      match goal with |- context [update_where_id gal_id id ?f t] =>
        destruct (update_where_id gal_id id f t) as [t'|e] eqn:Hup; simpl;
        [rewrite bind_rowid_int64 by exact Hrange;
         rewrite (update_where_id_again gal_id id f t t'
                    (set_gallery_row_again _ _ _ _) Hup)
        | by rewrite Ht; simpl; rewrite bind_rowid_int64 by exact Hrange; rewrite Hup] end.
      reflexivity. }
    by rewrite H in Hagain.
  - unfold delete_faculty. destruct (faculty db) as [t|] eqn:Ht; simpl; [|by rewrite Ht].
    rewrite bind_rowid_int64 by exact Hrange. simpl.
    rewrite bind_rowid_int64 by exact Hrange. simpl.
    by rewrite delete_where_id_again.
  - unfold delete_achievement. destruct (achievements db) as [t|] eqn:Ht; simpl;
      [|by rewrite Ht].
    rewrite bind_rowid_int64 by exact Hrange. simpl.
    rewrite bind_rowid_int64 by exact Hrange. simpl.
    by rewrite delete_where_id_again.
  - unfold delete_gallery. destruct (gallery db) as [t|] eqn:Ht; simpl; [|by rewrite Ht].
    rewrite bind_rowid_int64 by exact Hrange. simpl.
    rewrite bind_rowid_int64 by exact Hrange. simpl.
    by rewrite delete_where_id_again.
Qed.

Lemma put_and_delete_twice_witness :
  let body := Ok (JObj [("name", JStr "Dr. Rajesh Kumar");
                        ("designation", JStr "Professor");
                        ("subject", JStr "Deep Learning")]) in
  let answer := JObj [("success", JBool true);
                      ("message", JStr "Faculty member updated successfully!")] in
  int64 1
  /\ update_faculty seeded 1 body = ((update_faculty seeded 1 body).1, Resp answer 200)
  /\ update_faculty (update_faculty seeded 1 body).1 1 body
     = ((update_faculty seeded 1 body).1, Resp answer 200).
Proof.
  intros body answer.
  assert (Hrange : int64 1) by (unfold int64; lia).
  assert (H : update_faculty seeded 1 body
              = ((update_faculty seeded 1 body).1, Resp answer 200))
    by (vm_compute; reflexivity).
  split; [exact Hrange|]. split; [exact H|].
  exact (proj1 (put_and_delete_twice seeded _ 1 body answer Hrange) H).
Defined.

(** ** The rowids of a reachable store *)

Lemma next_rowid_within {R : Type} (rowid : R -> Z) (bound : Z) (t : table R) :
  table_within rowid bound (Some t) -> next_rowid rowid t = seq t + 1.
Proof.
  intros [[Hseq _] Hall]. unfold next_rowid. simpl in *.
  assert (foldr Z.max 0 (map rowid (rows t)) <= seq t) as Hmax.
  { induction Hall as [|r l Hr _ IH]; simpl; lia. }
  lia.
Qed.

Lemma table_within_mono {R : Type} (rowid : R -> Z) (bound bound' : Z)
    (t : option (table R)) :
  bound <= bound' -> table_within rowid bound t -> table_within rowid bound' t.
Proof. intros Hle [Hseq Hall]. split; [lia | exact Hall]. Qed.

Lemma db_within_mono (bound bound' : Z) (db : Db) :
  bound <= bound' -> db_within bound db -> db_within bound' db.
Proof.
  intros Hle (? & ? & ? & ?). unfold db_within. eauto 10 using table_within_mono.
Qed.

Lemma table_within_append {R : Type} (rowid : R -> Z) (bound : Z) (t : table R)
    (row : R) (id : Z) :
  table_within rowid bound (Some t) -> rowid row = id -> id = next_rowid rowid t ->
  table_within rowid (bound + 1) (Some (Table (rows t ++ [row]) id)).
Proof.
  intros Hin Hrow Hid. rewrite (next_rowid_within _ _ _ Hin) in Hid.
  destruct Hin as [Hseq Hall]. simpl in *. split; simpl; [lia|].
  apply Forall_app. split.
  - eapply Forall_impl; [exact Hall|]. simpl. intros r Hr. lia.
  - constructor; [lia | constructor].
Qed.

Lemma table_within_delete {R : Type} (rowid : R -> Z) (bound : Z) (t : table R) (id : Z) :
  table_within rowid bound (Some t) ->
  table_within rowid bound (Some (delete_where_id rowid id t)).
Proof.
  intros [Hseq Hall]. split; [exact Hseq|]. simpl in *.
  rewrite Forall_forall in *. intros r Hr. apply Hall.
  by apply list_elem_of_filter in Hr as [_ Hr].
Qed.

Lemma table_within_update {R : Type} (rowid : R -> Z) (bound : Z) (id : Z)
    (new_row : R -> result R) (t t' : table R) :
  (forall r r', new_row r = Ok r' -> rowid r' = rowid r) ->
  update_where_id rowid id new_row t = Ok t' ->
  table_within rowid bound (Some t) -> table_within rowid bound (Some t').
Proof.
  intros Hnew Hup [Hseq Hall]. pose proof (update_where_id_seq _ _ _ _ _ Hup) as Hs.
  unfold update_where_id in Hup. unfold_monad.
  destruct (update_rows rowid id new_row (rows t)) as [l|] eqn:Hl; [|discriminate].
  injection Hup as <-. simpl in *. split; [exact Hseq|].
  apply (update_rows_related _ _ _ (fun r r' => rowid r' = rowid r)) in Hl;
    [|reflexivity|exact Hnew].
  rewrite Forall_forall in *. intros r' Hr'.
  destruct (Forall2_elem_r _ _ _ _ Hl Hr') as (r & Hr & Heq). rewrite Heq. by apply Hall.
Qed.

Lemma db_within_set_contact_messages (bound : Z) (db : Db) (t : table contact_row) :
  db_within bound db -> table_within cm_id bound (Some t) ->
  db_within bound (set_contact_messages db t).
Proof. intros (? & ? & ? & ?) ?. unfold db_within. simpl. auto. Qed.

Lemma db_within_set_faculty (bound : Z) (db : Db) (t : table faculty_row) :
  db_within bound db -> table_within fac_id bound (Some t) ->
  db_within bound (set_faculty db t).
Proof. intros (? & ? & ? & ?) ?. unfold db_within. simpl. auto. Qed.

Lemma db_within_set_achievements (bound : Z) (db : Db) (t : table achievement_row) :
  db_within bound db -> table_within ach_id bound (Some t) ->
  db_within bound (set_achievements db t).
Proof. intros (? & ? & ? & ?) ?. unfold db_within. simpl. auto. Qed.

Lemma db_within_set_gallery (bound : Z) (db : Db) (t : table gallery_row) :
  db_within bound db -> table_within gal_id bound (Some t) ->
  db_within bound (set_gallery db t).
Proof. intros (? & ? & ? & ?) ?. unfold db_within. simpl. auto. Qed.

(** Puts the table a handler opened back into the words of the bound. *)
Ltac opened_within Hin :=
  repeat match goal with
  | H : open_table _ _ = Ok _ |- _ => apply open_table_Ok in H
  end;
  (let H := fresh in pose proof Hin as H; destruct H as (? & ? & ? & ?));
  repeat match goal with
  | H : ?o = Some _, H' : table_within _ _ ?o |- _ => rewrite H in H'
  end.

Lemma route_within (bound : Z) (db : Db) (now : string) (req : request) :
  db_within bound db -> db_within (bound + 1) (route db now req).1.
Proof.
  intros Hin. assert (db_within (bound + 1) db) as Hin'
    by (eapply db_within_mono; [|exact Hin]; lia).
  destruct req; simpl; try assumption.
  - unfold submit_contact. run_handler; try assumption. opened_within Hin.
    apply db_within_set_contact_messages; [assumption|].
    match goal with H : insert_contact _ _ _ _ _ _ _ _ _ = Ok _ |- _ =>
      apply insert_contact_appends in H as (row & -> & Hid & Hnext & _) end.
    eapply table_within_append; [eassumption | congruence | congruence].
  - unfold add_faculty. run_handler; try assumption. opened_within Hin.
    apply db_within_set_faculty; [assumption|].
    match goal with H : insert_faculty _ _ _ _ _ _ _ = Ok _ |- _ =>
      apply insert_faculty_appends in H as (row & -> & Hid & Hnext) end.
    eapply table_within_append; [eassumption | congruence | congruence].
  - unfold update_faculty. run_handler; try assumption. opened_within Hin.
    apply db_within_set_faculty; [assumption|].
    apply (table_within_mono _ bound); [lia|].
    eapply table_within_update; [|eassumption|eassumption].
    intros r r' Hr. by apply set_faculty_row_again in Hr as [Hr _].
  - unfold delete_faculty. run_handler; try assumption. opened_within Hin.
    apply db_within_set_faculty; [assumption|].
    apply (table_within_mono _ bound); [lia|]. by apply table_within_delete.
  - unfold add_achievement. run_handler; try assumption. opened_within Hin.
    apply db_within_set_achievements; [assumption|].
    match goal with H : insert_achievement _ _ _ _ _ _ _ = Ok _ |- _ =>
      pose proof (insert_achievement_rowid _ _ _ _ _ _ _ _ _ H) as Hnext;
      apply insert_achievement_appends in H as (row & -> & Hid & _) end.
    eapply table_within_append; [eassumption | congruence | congruence].
  - unfold update_achievement. run_handler; try assumption. opened_within Hin.
    apply db_within_set_achievements; [assumption|].
    apply (table_within_mono _ bound); [lia|].
    eapply table_within_update; [|eassumption|eassumption].
    intros r r' Hr. by apply set_achievement_row_again in Hr as [Hr _].
  - unfold delete_achievement. run_handler; try assumption. opened_within Hin.
    apply db_within_set_achievements; [assumption|].
    apply (table_within_mono _ bound); [lia|]. by apply table_within_delete.
  - unfold add_gallery. run_handler; try assumption. opened_within Hin.
    apply db_within_set_gallery; [assumption|].
    match goal with H : insert_gallery _ _ _ _ _ _ = Ok _ |- _ =>
      pose proof (insert_gallery_rowid _ _ _ _ _ _ _ _ H) as Hnext;
      apply insert_gallery_appends in H as (row & -> & Hid & _) end.
    eapply table_within_append; [eassumption | congruence | congruence].
  - unfold update_gallery. run_handler; try assumption. opened_within Hin.
    apply db_within_set_gallery; [assumption|].
    apply (table_within_mono _ bound); [lia|].
    eapply table_within_update; [|eassumption|eassumption].
    intros r r' Hr. by apply set_gallery_row_again in Hr as [Hr _].
  - unfold delete_gallery. run_handler; try assumption. opened_within Hin.
    apply db_within_set_gallery; [assumption|].
    apply (table_within_mono _ bound); [lia|]. by apply table_within_delete.
Qed.

Lemma serve_within (history : list (string * request)) (bound : Z) (db : Db) :
  db_within bound db ->
  db_within (bound + Z.of_nat (length history)) (serve db history).1.
Proof.
  revert bound db. induction history as [|[now req] rest IH]; intros bound db Hin.
  - simpl. by rewrite Z.add_0_r.
  - cbn [serve]. pose proof (route_within bound db now req Hin) as Hstep.
    destruct (route db now req) as [db1 r]. simpl in Hstep.
    specialize (IH _ _ Hstep). destruct (serve db1 rest) as [db2 rs]. simpl in *.
    eapply db_within_mono; [|exact IH]. lia.
Qed.

Lemma seeded_within : db_within 9 seeded.
Proof. apply (bool_decide_unpack _). vm_compute. exact I. Qed.

Lemma table_within_int64 {R : Type} (rowid : R -> Z) (bound : Z) (t : table R) :
  bound <= 9223372036854775807 -> table_within rowid bound (Some t) ->
  Forall int64 (map rowid (rows t)).
Proof.
  intros Hb [Hseq Hall]. simpl in *. apply Forall_fmap.
  eapply Forall_impl; [exact Hall|]. intros r Hr. unfold compose, int64. simpl in *. lia.
Qed.

(** X18: in a store reached from the first start by serving requests,
    every rowid lies between 1 and the counter of its table, and no counter
    exceeds 9 plus the number of requests served.  As long as that bound
    fits 64 bits, binding the id of a URL for a statement on such a store is
    the range check alone: an id outside the signed 64-bit range raises
    OverflowError, whatever the table holds. *)
Theorem reachable_rowids_fit (history : list (string * request)) :
  let db := (serve seeded history).1 in
  let bound := 9 + Z.of_nat (length history) in
  db_within bound db
  /\ (bound <= 9223372036854775807 ->
      forall id,
        (forall t, faculty db = Some t -> bind_rowid fac_id t id = bind_int id)
        /\ (forall t, achievements db = Some t -> bind_rowid ach_id t id = bind_int id)
        /\ (forall t, gallery db = Some t -> bind_rowid gal_id t id = bind_int id)).
Proof.
  intros db bound.
  assert (db_within bound db) as Hin by apply serve_within, seeded_within.
  split; [exact Hin|]. intros Hb id. destruct Hin as (_ & Hf & Ha & Hg).
  split_and!; intros t Ht; apply bind_rowid_range; eapply table_within_int64;
    try exact Hb.
  - by rewrite Ht in Hf.
  - by rewrite Ht in Ha.
  - by rewrite Ht in Hg.
Qed.

Lemma reachable_rowids_fit_witness :
  let history :=
    [("2024-06-01 10:00:00",
      POST_faculty (Ok (JObj [("name", JStr "Dr. Meena Iyer");
                              ("designation", JStr "Assistant Professor");
                              ("subject", JStr "Graph Learning")])));
     ("2024-06-01 10:05:00", DELETE_faculty 3)] in
  9 + Z.of_nat (length history) <= 9223372036854775807
  /\ map fac_id (table_rows (faculty (serve seeded history).1))
     = [1; 2; 4; 5; 6; 7; 8; 9; 10]
  /\ forall t, faculty (serve seeded history).1 = Some t ->
       bind_rowid fac_id t 9223372036854775808 = bind_int 9223372036854775808.
Proof.
  intros history.
  assert (Hb : 9 + Z.of_nat (length history) <= 9223372036854775807) by (simpl; lia).
  split; [exact Hb|]. split; [vm_compute; reflexivity|].
  exact (proj1 (proj2 (reachable_rowids_fit history) Hb 9223372036854775808)).
Defined.
